(** * ESP32-CAM frame transport: rate gate, sessions, datagram fragmentation

    A shallow embedding of the frame transport classes of the repository
    (TcpServer, CameraTcpServer, RelayClient, CameraRelayClient and
    UDPNetworkClient) and the properties of their rate gate, statistics,
    reconnection back-off and fragmentation protocol.

    Conventions.  Every C++ member function becomes a function from the
    object's state (a record with the members it uses, under their source
    names) to the new state and the returned value.  What a call observes
    from outside the object -- the readings of [millis()], the answers of the
    socket ([connected()], [write()], [connect()], [endPacket()]) and of the
    camera driver -- is passed in as a record of observations, one field per
    call site, in the order in which the source makes them. *)

From Equations Require Import Equations.
From stdpp Require Import base list.
From Stdlib Require Import ZArith Lia.
From Stdlib Require Import PrimFloat SpecFloat FloatOps Uint63.
From coqutil Require Import Z.bitblast.

Local Open Scope Z_scope.

(** ** The target machine

    The ESP32 is a little-endian ILP32 target: [unsigned long], [size_t] and
    [uint32_t] are 32 bits wide, [uint16_t] 16 bits, and arithmetic on them
    wraps.  [float] is IEEE binary32 and [double] IEEE binary64. *)
Module Machine.

Definition wrap32 (z : Z) : Z := z mod 2 ^ 32.
Definition wrap16 (z : Z) : Z := z mod 2 ^ 16.

(** Conversion of an [unsigned long] to [double] (exact below 2^53). *)
Definition of_ulong (z : Z) : float := of_uint63 (Uint63.of_Z z).

(** The integer part of a floating-point value (rounding toward zero);
    infinities and NaN have none. *)
Definition trunc (x : float) : option Z :=
  match Prim2SF x with
  | S754_zero _ => Some 0
  | S754_finite s m e =>
      let mag := if 0 <=? e then Z.shiftl (Z.pos m) e
                 else Z.shiftr (Z.pos m) (- e) in
      Some (if s then - mag else mag)
  | S754_infinity _ => None
  | S754_nan => None
  end.

(** The cast [(unsigned long) x].  C++ [conv.fpint] defines it only when
    the truncated value is representable in the destination type; [None]
    stands for the undefined cases. *)
Definition to_ulong (x : float) : option Z :=
  match trunc x with
  | Some z => if (0 <=? z) && (z <? 2 ^ 32) then Some z else None
  | None => None
  end.

(** Narrowing of a [double] to [float] (binary32, round to nearest even),
    carried again as a binary64 value. *)
Definition to_float (x : float) : float :=
  match Prim2SF x with
  | S754_finite s m e => SF2Prim (binary_round 24 128 s m e)
  | _ => x
  end.

(** Slot [i] of a C array of [unsigned long]. *)
Definition slot (a : list Z) (i : nat) : Z := default 0 (a !! i).

End Machine.
Import Machine.

(** ** TcpServer (src/src/TcpServer.cpp) *)
Module TcpServer.

Record t := {
  _client : bool;            (* the held WiFiClient converts to true *)
  _port : Z;
  _targetFPS : float;
  _frameInterval : Z;
  _lastFrameTime : Z;
  _clientCount : Z;
  _frameCount : Z;
  _bytesSent : Z;
  _fpsTimestamps : list Z;   (* unsigned long [10] *)
  _fpsIndex : nat            (* uint8_t, always below 10 *)
}.

(** What one [sendData] call observes. *)
Record io := {
  connected : bool;          (* _client.connected() in hasClient() *)
  write : Z;                 (* result of _client.write(data, length) *)
  millis_sent : Z;           (* millis() stored in _lastFrameTime *)
  millis_fps : Z             (* millis() read by updateFPS() *)
}.

(** The constructor; the initialiser of [_frameInterval] contains the
    cast, so an object exists only when the cast is defined. *)
Definition new (port : Z) (targetFPS : float) : option t :=
  match to_ulong (1000 / targetFPS)%float with
  | Some interval =>
      Some {| _client := false; _port := port; _targetFPS := targetFPS;
              _frameInterval := interval; _lastFrameTime := 0;
              _clientCount := 0; _frameCount := 0; _bytesSent := 0;
              _fpsTimestamps := replicate 10 0; _fpsIndex := 0 |}
  | None => None
  end.

Definition hasClient (s : t) (conn : bool) : bool := _client s && conn.

Definition disconnectClient (s : t) : t :=
  if _client s then
    {| _client := false; _port := _port s; _targetFPS := _targetFPS s;
       _frameInterval := _frameInterval s;
       _lastFrameTime := _lastFrameTime s;
       _clientCount := _clientCount s; _frameCount := _frameCount s;
       _bytesSent := _bytesSent s;
       _fpsTimestamps := _fpsTimestamps s; _fpsIndex := _fpsIndex s |}
  else s.

Definition updateFPS (s : t) (now : Z) : t :=
  {| _client := _client s; _port := _port s; _targetFPS := _targetFPS s;
     _frameInterval := _frameInterval s;
     _lastFrameTime := _lastFrameTime s;
     _clientCount := _clientCount s; _frameCount := _frameCount s;
     _bytesSent := _bytesSent s;
     _fpsTimestamps := <[_fpsIndex s := now]> (_fpsTimestamps s);
     _fpsIndex := ((_fpsIndex s + 1) mod 10)%nat |}.

(** The span [getActualFPS] divides by. *)
Definition elapsed (s : t) : Z :=
  wrap32 (slot (_fpsTimestamps s) (_fpsIndex s)
          - slot (_fpsTimestamps s) ((_fpsIndex s + 1) mod 10)%nat).

Definition getActualFPS (s : t) : float :=
  if slot (_fpsTimestamps s) 9 =? 0 then 0%float
  else if elapsed s =? 0 then 0%float
  else to_float (9000 / of_ulong (elapsed s))%float.

(** [run]: [conn] is the answer of [_client.connected()] (asked only when
    a client is held), [available] whether [_server.available()] yields a
    client. *)
Definition run (s : t) (conn available : bool) : t :=
  if negb (_client s) || negb conn then
    {| _client := available; _port := _port s;
       _targetFPS := _targetFPS s; _frameInterval := _frameInterval s;
       _lastFrameTime := _lastFrameTime s;
       _clientCount :=
         if available then wrap32 (_clientCount s + 1) else _clientCount s;
       _frameCount := _frameCount s; _bytesSent := _bytesSent s;
       _fpsTimestamps := _fpsTimestamps s; _fpsIndex := _fpsIndex s |}
  else s.

Definition sendData (s : t) (e : io) (data : list Z) : bool * t :=
  let len := Z.of_nat (length data) in
  if negb (hasClient s (connected e)) then (false, s)
  else if negb (write e =? len) then (false, disconnectClient s)
  else
    let s1 :=
      {| _client := _client s; _port := _port s;
         _targetFPS := _targetFPS s; _frameInterval := _frameInterval s;
         _lastFrameTime := millis_sent e;
         _clientCount := _clientCount s;
         _frameCount := wrap32 (_frameCount s + 1);
         _bytesSent := wrap32 (_bytesSent s + write e);
         _fpsTimestamps := _fpsTimestamps s; _fpsIndex := _fpsIndex s |} in
    (true, updateFPS s1 (millis_fps e)).

(** [canSend] is not [const] here: on overflow it also moves
    [_lastFrameTime]. *)
Definition canSend (s : t) (now : Z) : bool * t :=
  if now <? _lastFrameTime s then
    (true,
     {| _client := _client s; _port := _port s;
        _targetFPS := _targetFPS s; _frameInterval := _frameInterval s;
        _lastFrameTime := now;
        _clientCount := _clientCount s; _frameCount := _frameCount s;
        _bytesSent := _bytesSent s;
        _fpsTimestamps := _fpsTimestamps s; _fpsIndex := _fpsIndex s |})
  else (_frameInterval s <=? wrap32 (now - _lastFrameTime s), s).

Definition setTargetFPS (s : t) (fps : float) : option t :=
  match to_ulong (1000 / fps)%float with
  | Some interval =>
      Some {| _client := _client s; _port := _port s; _targetFPS := fps;
              _frameInterval := interval;
              _lastFrameTime := _lastFrameTime s;
              _clientCount := _clientCount s;
              _frameCount := _frameCount s; _bytesSent := _bytesSent s;
              _fpsTimestamps := _fpsTimestamps s;
              _fpsIndex := _fpsIndex s |}
  | None => None
  end.

(** A client that stays connected and accepts every byte, sending at the
    given clock reading. *)
Definition good_send (now : Z) (data : list Z) : io :=
  {| connected := true; write := Z.of_nat (length data);
     millis_sent := now; millis_fps := now |}.

(** Successive [sendData] calls of one payload at the given readings. *)
Definition sends (s : t) (data : list Z) (times : list Z) : t :=
  foldl (fun s now => snd (sendData s (good_send now data) data)) s times.

End TcpServer.

(** ** CameraTcpServer (src/src/CameraTcpServer.cpp) *)
Module CameraTcpServer.

Inductive Status :=
| OK | CAMERA_INIT_FAILED | CAMERA_CAPTURE_FAILED
| NO_CLIENT | SEND_FAILED | IDLE.

Record t := {
  _port : Z;
  _targetFPS : float;
  _hasClient : bool;
  _cameraInitialized : bool;
  _lastFrameTime : Z;
  _frameInterval : Z;
  _clientCount : Z;
  _frameCount : Z;
  _bytesSent : Z;
  _fpsTimestamps : list Z;
  _fpsIndex : nat
}.

(** What one [run] call observes, in source order. *)
Record io := {
  connected : bool;          (* _client.connected() *)
  available : bool;          (* _server.available() yields a client *)
  millis_gate : Z;           (* millis() in canSend() *)
  fb : option (list Z);      (* esp_camera_fb_get(): the frame, if any *)
  write : Z;                 (* _client.write(fb->buf, fb->len) *)
  millis_sent : Z;           (* millis() stored in _lastFrameTime *)
  millis_fps : Z             (* millis() read by updateFPS() *)
}.

Definition new (port : Z) (targetFPS : float) : option t :=
  match to_ulong (1000 / targetFPS)%float with
  | Some interval =>
      Some {| _port := port; _targetFPS := targetFPS; _hasClient := false;
              _cameraInitialized := false; _lastFrameTime := 0;
              _frameInterval := interval; _clientCount := 0;
              _frameCount := 0; _bytesSent := 0;
              _fpsTimestamps := replicate 10 0; _fpsIndex := 0 |}
  | None => None
  end.

Definition set_client (has : bool) (count : Z) (s : t) : t :=
  {| _port := _port s; _targetFPS := _targetFPS s; _hasClient := has;
     _cameraInitialized := _cameraInitialized s;
     _lastFrameTime := _lastFrameTime s;
     _frameInterval := _frameInterval s; _clientCount := count;
     _frameCount := _frameCount s; _bytesSent := _bytesSent s;
     _fpsTimestamps := _fpsTimestamps s; _fpsIndex := _fpsIndex s |}.

(** [begin]: [camera_ok] tells whether [initCamera()] succeeds. *)
Definition begin (s : t) (camera_ok : bool) : bool * t :=
  if _cameraInitialized s || camera_ok then
    (true,
     {| _port := _port s; _targetFPS := _targetFPS s;
        _hasClient := _hasClient s; _cameraInitialized := true;
        _lastFrameTime := _lastFrameTime s;
        _frameInterval := _frameInterval s;
        _clientCount := _clientCount s; _frameCount := _frameCount s;
        _bytesSent := _bytesSent s;
        _fpsTimestamps := _fpsTimestamps s; _fpsIndex := _fpsIndex s |})
  else (false, s).

Definition disconnectClient (s : t) : t :=
  if _hasClient s then set_client false (_clientCount s) s else s.

Definition canSend (s : t) (now : Z) : bool :=
  if now <? _lastFrameTime s then true
  else _frameInterval s <=? wrap32 (now - _lastFrameTime s).

Definition updateFPS (s : t) (now : Z) : t :=
  {| _port := _port s; _targetFPS := _targetFPS s;
     _hasClient := _hasClient s;
     _cameraInitialized := _cameraInitialized s;
     _lastFrameTime := _lastFrameTime s;
     _frameInterval := _frameInterval s;
     _clientCount := _clientCount s; _frameCount := _frameCount s;
     _bytesSent := _bytesSent s;
     _fpsTimestamps := <[_fpsIndex s := now]> (_fpsTimestamps s);
     _fpsIndex := ((_fpsIndex s + 1) mod 10)%nat |}.

Definition elapsed (s : t) : Z :=
  wrap32 (slot (_fpsTimestamps s) (_fpsIndex s)
          - slot (_fpsTimestamps s) ((_fpsIndex s + 1) mod 10)%nat).

Definition getActualFPS (s : t) : float :=
  if slot (_fpsTimestamps s) 9 =? 0 then 0%float
  else if elapsed s =? 0 then 0%float
  else to_float (9000 / of_ulong (elapsed s))%float.

Definition setTargetFPS (s : t) (fps : float) : option t :=
  match to_ulong (1000 / fps)%float with
  | Some interval =>
      Some {| _port := _port s; _targetFPS := fps;
              _hasClient := _hasClient s;
              _cameraInitialized := _cameraInitialized s;
              _lastFrameTime := _lastFrameTime s;
              _frameInterval := interval;
              _clientCount := _clientCount s;
              _frameCount := _frameCount s; _bytesSent := _bytesSent s;
              _fpsTimestamps := _fpsTimestamps s;
              _fpsIndex := _fpsIndex s |}
  | None => None
  end.

(** The tail of [run] once a client is held: throttle, capture, send. *)
Definition capture_and_send (s : t) (e : io) : Status * t :=
  if negb (canSend s (millis_gate e)) then (IDLE, s)
  else
    match fb e with
    | None => (CAMERA_CAPTURE_FAILED, s)
    | Some buf =>
        if negb (write e =? Z.of_nat (length buf))
        then (SEND_FAILED, disconnectClient s)
        else
          let s1 :=
            {| _port := _port s; _targetFPS := _targetFPS s;
               _hasClient := _hasClient s;
               _cameraInitialized := _cameraInitialized s;
               _lastFrameTime := millis_sent e;
               _frameInterval := _frameInterval s;
               _clientCount := _clientCount s;
               _frameCount := wrap32 (_frameCount s + 1);
               _bytesSent := wrap32 (_bytesSent s + write e);
               _fpsTimestamps := _fpsTimestamps s;
               _fpsIndex := _fpsIndex s |} in
          (OK, updateFPS s1 (millis_fps e))
    end.

Definition run (s : t) (e : io) : Status * t :=
  if negb (_cameraInitialized s) then (CAMERA_INIT_FAILED, s)
  else if negb (_hasClient s) || negb (connected e) then
    let s1 :=
      if _hasClient s then set_client false (_clientCount s) s else s in
    if available e
    then capture_and_send
           (set_client true (wrap32 (_clientCount s1 + 1)) s1) e
    else (NO_CLIENT, s1)
  else capture_and_send s e.

(** One tick in which the client is live, the camera delivers [buf] and
    the socket takes all of it, at clock reading [now]. *)
Definition good_tick (now : Z) (buf : list Z) : io :=
  {| connected := true; available := true; millis_gate := now;
     fb := Some buf; write := Z.of_nat (length buf);
     millis_sent := now; millis_fps := now |}.

Definition ticks (s : t) (buf : list Z) (times : list Z) : t :=
  foldl (fun s now => snd (run s (good_tick now buf))) s times.

End CameraTcpServer.

(** ** The calls a client session makes on its WiFiClient

    Each member function of the two client classes also returns the calls
    it made on [_client], in order, so that "the transport is closed" and
    "a connection attempt is made" are observable. *)
Inductive sock_call :=
| Connect                       (* _client.connect(_host, _port) *)
| Stop                          (* _client.stop() *)
| Write (requested sent : Z)    (* _client.write(ptr, requested) = sent *)
| Flush.                        (* _client.flush() *)

#[global] Instance sock_call_eq_dec : EqDecision sock_call.
Proof. solve_decision. Defined.

Definition attempts (log : list sock_call) : nat :=
  length (filter (fun c => c = Connect) log).

(** ** RelayClient (src/src/RelayClient.cpp) *)
Module RelayClient.

Record t := {
  _targetFPS : float;
  _retryDelay : Z;
  _isConnected : bool;
  _lastConnectionAttempt : Z;
  _lastSendTime : Z;
  _minSendInterval : Z;
  _frameCount : Z;
  _totalBytesSent : Z;
  _startTime : Z
}.

(** What one [run] call observes. *)
Record run_io := {
  connected : bool;          (* _client.connected() *)
  millis_run : Z;            (* millis() in run() *)
  millis_attempt : Z;        (* millis() in attemptConnection() *)
  connect : bool             (* _client.connect(_host, _port) *)
}.

(** What one [sendData] call observes.  [writes] lists, per iteration of
    the write loop, the answer of [_client.connected()] in the loop test
    and the result of [_client.write]; a test beyond the end of the list
    finds the connection down. *)
Record send_io := {
  millis_gate : Z;           (* millis() in canSend() *)
  writes : list (bool * Z);
  millis_sent : Z            (* millis() stored in _lastSendTime *)
}.

Definition set_isConnected (b : bool) (s : t) : t :=
  {| _targetFPS := _targetFPS s; _retryDelay := _retryDelay s;
     _isConnected := b;
     _lastConnectionAttempt := _lastConnectionAttempt s;
     _lastSendTime := _lastSendTime s;
     _minSendInterval := _minSendInterval s;
     _frameCount := _frameCount s;
     _totalBytesSent := _totalBytesSent s; _startTime := _startTime s |}.

(** [updateFPSInterval]: the cast is reached only under the guard. *)
Definition updateFPSInterval (s : t) : option t :=
  let set i :=
    {| _targetFPS := _targetFPS s; _retryDelay := _retryDelay s;
       _isConnected := _isConnected s;
       _lastConnectionAttempt := _lastConnectionAttempt s;
       _lastSendTime := _lastSendTime s; _minSendInterval := i;
       _frameCount := _frameCount s;
       _totalBytesSent := _totalBytesSent s;
       _startTime := _startTime s |} in
  if (0 <? _targetFPS s)%float then
    match to_ulong (1000 / _targetFPS s)%float with
    | Some i => Some (set i)
    | None => None
    end
  else Some (set 0).

Definition new (targetFPS : float) : option t :=
  updateFPSInterval
    {| _targetFPS := targetFPS; _retryDelay := 5000;
       _isConnected := false; _lastConnectionAttempt := 0;
       _lastSendTime := 0; _minSendInterval := 0; _frameCount := 0;
       _totalBytesSent := 0; _startTime := 0 |}.

Definition setTargetFPS (s : t) (fps : float) : option t :=
  updateFPSInterval
    {| _targetFPS := fps; _retryDelay := _retryDelay s;
       _isConnected := _isConnected s;
       _lastConnectionAttempt := _lastConnectionAttempt s;
       _lastSendTime := _lastSendTime s;
       _minSendInterval := _minSendInterval s;
       _frameCount := _frameCount s;
       _totalBytesSent := _totalBytesSent s;
       _startTime := _startTime s |}.

Definition setRetryDelay (s : t) (delayMs : Z) : t :=
  {| _targetFPS := _targetFPS s; _retryDelay := delayMs;
     _isConnected := _isConnected s;
     _lastConnectionAttempt := _lastConnectionAttempt s;
     _lastSendTime := _lastSendTime s;
     _minSendInterval := _minSendInterval s;
     _frameCount := _frameCount s;
     _totalBytesSent := _totalBytesSent s; _startTime := _startTime s |}.

Definition isConnected (s : t) : bool := _isConnected s.

Definition canSend (s : t) (now : Z) : bool :=
  if _minSendInterval s =? 0 then true
  else _minSendInterval s <=? wrap32 (now - _lastSendTime s).

Definition attemptConnection (s : t) (now : Z) (ok : bool)
  : t * list sock_call :=
  ({| _targetFPS := _targetFPS s; _retryDelay := _retryDelay s;
      _isConnected := ok; _lastConnectionAttempt := now;
      _lastSendTime := _lastSendTime s;
      _minSendInterval := _minSendInterval s;
      _frameCount := _frameCount s;
      _totalBytesSent := _totalBytesSent s;
      _startTime := _startTime s |}, [Connect]).

Definition run (s : t) (e : run_io) : t * list sock_call :=
  if connected e then
    (if negb (_isConnected s) then set_isConnected true s else s, [])
  else
    let '(s1, log1) :=
      if _isConnected s then (set_isConnected false s, [Stop])
      else (s, []) in
    if _retryDelay s1 <=? wrap32 (millis_run e - _lastConnectionAttempt s1)
    then
      let '(s2, log2) :=
        attemptConnection s1 (millis_attempt e) (connect e) in
      (s2, log1 ++ log2)
    else (s1, log1).

(** How the write loop ends: a write returned 0, or the loop was left
    (nothing remaining, or the connection reported down). *)
Inductive loop_end := WroteZero | LoopLeft (totalSent : Z).

Fixpoint write_loop (obs : list (bool * Z)) (remaining totalSent : Z)
  : loop_end * list sock_call :=
  if remaining =? 0 then (LoopLeft totalSent, [])
  else
    match obs with
    | [] => (LoopLeft totalSent, [])
    | (false, _) :: _ => (LoopLeft totalSent, [])
    | (true, sent) :: obs' =>
        if sent =? 0 then (WroteZero, [Write remaining sent])
        else
          let '(r, log) :=
            write_loop obs' (wrap32 (remaining - sent))
                       (wrap32 (totalSent + sent)) in
          (r, Write remaining sent :: log)
    end.

Definition sendData (s : t) (e : send_io) (data : list Z)
  : bool * t * list sock_call :=
  if negb (_isConnected s) then (false, s, [])
  else if negb (canSend s (millis_gate e)) then (false, s, [])
  else
    match write_loop (writes e) (Z.of_nat (length data)) 0 with
    | (WroteZero, log) =>
        (false, set_isConnected false s, log ++ [Stop])
    | (LoopLeft totalSent, log) =>
        (true,
         {| _targetFPS := _targetFPS s; _retryDelay := _retryDelay s;
            _isConnected := false;
            _lastConnectionAttempt := _lastConnectionAttempt s;
            _lastSendTime := millis_sent e;
            _minSendInterval := _minSendInterval s;
            _frameCount := wrap32 (_frameCount s + 1);
            _totalBytesSent := wrap32 (_totalBytesSent s + totalSent);
            _startTime := _startTime s |},
         log ++ [Flush; Stop])
    end.

End RelayClient.

(** ** CameraRelayClient (src/src/CameraRelayClient.cpp) *)
Module CameraRelayClient.

Inductive Status :=
| OK | CAMERA_INIT_FAILED | CAMERA_CAPTURE_FAILED | NOT_CONNECTED
| SEND_FAILED | RECONNECTING | IDLE.

Record t := {
  _targetFPS : float;
  _retryDelay : Z;
  _isConnected : bool;
  _cameraInitialized : bool;
  _lastConnectionAttempt : Z;
  _lastFrameTime : Z;
  _frameInterval : Z;
  _frameCount : Z;
  _bytesSent : Z;
  _fpsTimestamps : list Z;
  _fpsIndex : nat
}.

(** What one [run] call observes, in source order. *)
Record io := {
  millis_attempt : Z;        (* millis() in attemptConnection() *)
  connect : bool;            (* _client.connect(_host, _port) *)
  connected : bool;          (* _client.connected() *)
  millis_gate : Z;           (* millis() in canSend() *)
  fb : option (list Z);      (* esp_camera_fb_get(): the frame, if any *)
  write : Z;                 (* _client.write(fb->buf, fb->len) *)
  millis_sent : Z;           (* millis() stored in _lastFrameTime *)
  millis_fps : Z             (* millis() read by updateFPS() *)
}.

Definition new (targetFPS : float) : option t :=
  match to_ulong (1000 / targetFPS)%float with
  | Some interval =>
      Some {| _targetFPS := targetFPS; _retryDelay := 5000;
              _isConnected := false; _cameraInitialized := false;
              _lastConnectionAttempt := 0; _lastFrameTime := 0;
              _frameInterval := interval; _frameCount := 0;
              _bytesSent := 0; _fpsTimestamps := replicate 10 0;
              _fpsIndex := 0 |}
  | None => None
  end.

Definition set_connection (b : bool) (attempt : Z) (s : t) : t :=
  {| _targetFPS := _targetFPS s; _retryDelay := _retryDelay s;
     _isConnected := b; _cameraInitialized := _cameraInitialized s;
     _lastConnectionAttempt := attempt;
     _lastFrameTime := _lastFrameTime s;
     _frameInterval := _frameInterval s; _frameCount := _frameCount s;
     _bytesSent := _bytesSent s; _fpsTimestamps := _fpsTimestamps s;
     _fpsIndex := _fpsIndex s |}.

Definition set_isConnected (b : bool) (s : t) : t :=
  set_connection b (_lastConnectionAttempt s) s.

Definition begin (s : t) (camera_ok : bool) : bool * t :=
  if _cameraInitialized s || camera_ok then
    (true,
     {| _targetFPS := _targetFPS s; _retryDelay := _retryDelay s;
        _isConnected := _isConnected s; _cameraInitialized := true;
        _lastConnectionAttempt := _lastConnectionAttempt s;
        _lastFrameTime := _lastFrameTime s;
        _frameInterval := _frameInterval s;
        _frameCount := _frameCount s; _bytesSent := _bytesSent s;
        _fpsTimestamps := _fpsTimestamps s; _fpsIndex := _fpsIndex s |})
  else (false, s).

Definition setRetryDelay (s : t) (delayMs : Z) : t :=
  {| _targetFPS := _targetFPS s; _retryDelay := delayMs;
     _isConnected := _isConnected s;
     _cameraInitialized := _cameraInitialized s;
     _lastConnectionAttempt := _lastConnectionAttempt s;
     _lastFrameTime := _lastFrameTime s;
     _frameInterval := _frameInterval s; _frameCount := _frameCount s;
     _bytesSent := _bytesSent s; _fpsTimestamps := _fpsTimestamps s;
     _fpsIndex := _fpsIndex s |}.

Definition isConnected (s : t) : bool := _isConnected s.

Definition setTargetFPS (s : t) (fps : float) : option t :=
  match to_ulong (1000 / fps)%float with
  | Some interval =>
      Some {| _targetFPS := fps; _retryDelay := _retryDelay s;
              _isConnected := _isConnected s;
              _cameraInitialized := _cameraInitialized s;
              _lastConnectionAttempt := _lastConnectionAttempt s;
              _lastFrameTime := _lastFrameTime s;
              _frameInterval := interval; _frameCount := _frameCount s;
              _bytesSent := _bytesSent s;
              _fpsTimestamps := _fpsTimestamps s;
              _fpsIndex := _fpsIndex s |}
  | None => None
  end.

Definition attemptConnection (s : t) (now : Z) (ok : bool)
  : t * list sock_call :=
  if wrap32 (now - _lastConnectionAttempt s) <? _retryDelay s then (s, [])
  else
    (set_connection (if ok then true else _isConnected s) now s,
     [Connect]).

Definition canSend (s : t) (now : Z) : bool :=
  if now <? _lastFrameTime s then true
  else _frameInterval s <=? wrap32 (now - _lastFrameTime s).

Definition updateFPS (s : t) (now : Z) : t :=
  {| _targetFPS := _targetFPS s; _retryDelay := _retryDelay s;
     _isConnected := _isConnected s;
     _cameraInitialized := _cameraInitialized s;
     _lastConnectionAttempt := _lastConnectionAttempt s;
     _lastFrameTime := _lastFrameTime s;
     _frameInterval := _frameInterval s; _frameCount := _frameCount s;
     _bytesSent := _bytesSent s;
     _fpsTimestamps := <[_fpsIndex s := now]> (_fpsTimestamps s);
     _fpsIndex := ((_fpsIndex s + 1) mod 10)%nat |}.

(** The part of [run] after the connection handling. *)
Definition check_and_send (s : t) (e : io) (log : list sock_call)
  : Status * t * list sock_call :=
  if _isConnected s && negb (connected e)
  then (NOT_CONNECTED, set_isConnected false s, log)
  else if negb (canSend s (millis_gate e)) then (IDLE, s, log)
  else
    match fb e with
    | None => (CAMERA_CAPTURE_FAILED, s, log)
    | Some buf =>
        let len := Z.of_nat (length buf) in
        if negb (write e =? len)
        then (SEND_FAILED, set_isConnected false s,
              log ++ [Write len (write e); Stop])
        else
          let s1 :=
            {| _targetFPS := _targetFPS s; _retryDelay := _retryDelay s;
               _isConnected := _isConnected s;
               _cameraInitialized := _cameraInitialized s;
               _lastConnectionAttempt := _lastConnectionAttempt s;
               _lastFrameTime := millis_sent e;
               _frameInterval := _frameInterval s;
               _frameCount := wrap32 (_frameCount s + 1);
               _bytesSent := wrap32 (_bytesSent s + write e);
               _fpsTimestamps := _fpsTimestamps s;
               _fpsIndex := _fpsIndex s |} in
          (OK, updateFPS s1 (millis_fps e), log ++ [Write len (write e)])
    end.

Definition run (s : t) (e : io) : Status * t * list sock_call :=
  if negb (_cameraInitialized s) then (CAMERA_INIT_FAILED, s, [])
  else if negb (_isConnected s) then
    let '(s1, log) := attemptConnection s (millis_attempt e) (connect e) in
    if negb (_isConnected s1) then (RECONNECTING, s1, log)
    else check_and_send s1 e log
  else check_and_send s e [].

End CameraRelayClient.

(** ** UDPNetworkClient (src/include/UDPNetworkClient.h) *)
Module UDPNetworkClient.

Definition HEADER_SIZE : Z := 12.
Definition MAX_PAYLOAD_SIZE : Z := 1400.
Definition HANDSHAKE_SIZE : Z := 10.

Record t := {
  _port : Z;
  _remoteIP : Z;
  _connected : bool;
  _frameId : Z;              (* uint32_t *)
  _password : list Z         (* uint8_t [8] *)
}.

Definition htonl (hostlong : Z) : Z :=
  Z.lor (Z.lor (Z.lor (Z.shiftr (Z.land hostlong 0xFF000000) 24)
                      (Z.shiftr (Z.land hostlong 0x00FF0000) 8))
               (Z.shiftl (Z.land hostlong 0x0000FF00) 8))
        (Z.shiftl (Z.land hostlong 0x000000FF) 24).

Definition htons (hostshort : Z) : Z :=
  wrap16 (Z.lor (Z.shiftr (Z.land hostshort 0xFF00) 8)
                (Z.shiftl (Z.land hostshort 0x00FF) 8)).

(** The bytes [_udp.write((uint8_t* )&x, n)] appends: the object
    representation of [x], least significant byte first on this target. *)
Definition bytes_of_u32 (x : Z) : list Z :=
  [Z.land x 0xFF; Z.land (Z.shiftr x 8) 0xFF;
   Z.land (Z.shiftr x 16) 0xFF; Z.land (Z.shiftr x 24) 0xFF].

Definition bytes_of_u16 (x : Z) : list Z :=
  [Z.land x 0xFF; Z.land (Z.shiftr x 8) 0xFF].

Definition set_frameId (id : Z) (s : t) : t :=
  {| _port := _port s; _remoteIP := _remoteIP s;
     _connected := _connected s; _frameId := id;
     _password := _password s |}.

Definition new : t :=
  {| _port := 0; _remoteIP := 0; _connected := false; _frameId := 0;
     _password := [69; 83; 80; 51; 50; 67; 65; 77] (* "ESP32CAM" *) |}.

(** [sendHandshake]: returns the datagram handed to the socket, if any
    (the result of its [endPacket()] is not looked at). *)
Definition sendHandshake (s : t) : t * list (list Z) :=
  if negb (_connected s) then (s, [])
  else (set_frameId 0 s, [[72; 83] ++ take 8 (_password s)]).

(** [connect]: [resolved] is the address [WiFi.hostByName] finds, if
    any. *)
Definition connect (s : t) (resolved : option Z) (port : Z)
  : bool * t * list (list Z) :=
  match resolved with
  | Some ip =>
      let s1 := {| _port := port; _remoteIP := ip; _connected := true;
                   _frameId := 0; _password := _password s |} in
      let '(s2, pkts) := sendHandshake s1 in
      (true, s2, pkts)
  | None =>
      (false,
       {| _port := port; _remoteIP := _remoteIP s;
          _connected := _connected s; _frameId := _frameId s;
          _password := _password s |}, [])
  end.

Definition connected (s : t) : bool := _connected s.

Definition stop (s : t) : t :=
  {| _port := _port s; _remoteIP := _remoteIP s; _connected := false;
     _frameId := _frameId s; _password := _password s |}.

(** One datagram of the loop body: the four header writes and the
    payload write. *)
Definition packet (frameId fragmentIndex totalFragments : Z)
    (data : list Z) (offset payloadSize : Z) : list Z :=
  bytes_of_u32 (htonl frameId)
  ++ bytes_of_u16 (htons fragmentIndex)
  ++ bytes_of_u16 (htons totalFragments)
  ++ bytes_of_u32 (htonl (wrap32 (Z.of_nat (length data))))
  ++ take (Z.to_nat payloadSize) (drop (Z.to_nat offset) data).

(** The [while (offset < len)] loop.  [endPacket k] is the result of the
    [k]-th call of [_udp.endPacket()] of this [send]; the function
    returns whether the loop ran to its end and the datagrams that were
    transmitted. *)
Equations? send_loop (endPacket : nat -> bool)
    (frameId totalFragments : Z) (data : list Z)
    (offset fragmentIndex : Z) (k : nat) : bool * list (list Z)
  by wf (Z.to_nat (Z.of_nat (length data) - offset)) lt :=
  send_loop endPacket frameId totalFragments data offset fragmentIndex k
    with Z_lt_dec offset (Z.of_nat (length data)) := {
    | left _ =>
        if endPacket k then
          let r := send_loop endPacket frameId totalFragments data
                     (offset + Z.min MAX_PAYLOAD_SIZE
                                 (Z.of_nat (length data) - offset))
                     (wrap16 (fragmentIndex + 1)) (S k) in
          (fst r,
           packet frameId fragmentIndex totalFragments data offset
             (Z.min MAX_PAYLOAD_SIZE (Z.of_nat (length data) - offset))
           :: snd r)
        else (false, [])
    | right _ => (true, []) }.
Proof. unfold MAX_PAYLOAD_SIZE. lia. Qed.

Definition send (s : t) (endPacket : nat -> bool) (data : list Z)
  : Z * t * list (list Z) :=
  if negb (_connected s) then (0, s, [])
  else
    let len := Z.of_nat (length data) in
    let totalFragments :=
      wrap16 (wrap32 (len + MAX_PAYLOAD_SIZE - 1) / MAX_PAYLOAD_SIZE) in
    let totalFragments :=
      if totalFragments =? 0 then 1 else totalFragments in
    let '(ok, pkts) :=
      send_loop endPacket (_frameId s) totalFragments data 0 0 0 in
    if ok then (len, set_frameId (wrap32 (_frameId s + 1)) s, pkts)
    else (0, s, pkts).

(** The characters of a C string: the bytes before the first NUL. *)
Fixpoint c_str (bytes : list Z) : list Z :=
  match bytes with
  | [] => []
  | c :: rest => if c =? 0 then [] else c :: c_str rest
  end.

(** [setPassword]: [memset(_password, 0, 8)], then [strncpy] of at most 8
    characters of the argument. *)
Definition setPassword (s : t) (password : list Z) : t :=
  {| _port := _port s; _remoteIP := _remoteIP s;
     _connected := _connected s; _frameId := _frameId s;
     _password := resize 8 0 (c_str password) |}.

End UDPNetworkClient.

(** ** Vocabulary of the specification *)

(** [ceil (a / b)] for a positive [b]. *)
Definition ceil_div (a b : Z) : Z := - ((- a) / b).

(** The number of fragments the wire format asks for a frame of [len]
    bytes with the 1400-byte cap. *)
Definition fragments (len : Z) : nat := Z.to_nat (ceil_div len 1400).

(** Network byte order: most significant byte first. *)
Definition be32 (x : Z) : list Z :=
  [x / 2 ^ 24 mod 256; x / 2 ^ 16 mod 256; x / 2 ^ 8 mod 256; x mod 256].

Definition be16 (x : Z) : list Z := [x / 2 ^ 8 mod 256; x mod 256].

(** The 12-byte fragment header of section 6 of the specification. *)
Definition wire_header (frameId fragmentIndex fragmentCount frameSize : Z)
  : list Z :=
  be32 frameId ++ be16 fragmentIndex ++ be16 fragmentCount ++ be32 frameSize.

(** Fragment [i] of a frame: its header and its slice of at most 1400
    bytes of the payload. *)
Definition wire_fragment (frameId : Z) (count : nat) (data : list Z)
    (i : nat) : list Z :=
  wire_header frameId (Z.of_nat i) (Z.of_nat count) (Z.of_nat (length data))
  ++ take 1400 (drop (1400 * i) data).

(** The datagrams of a frame, in order. *)
Definition wire_fragments (frameId : Z) (data : list Z) : list (list Z) :=
  let n := fragments (Z.of_nat (length data)) in
  map (wire_fragment frameId n data) (seq 0 n).

(** The statistics and rate-gate members of each class: the frame
    counter, the byte counter, the last-send timestamp and (where the class
    has one) the timestamp ring with its index. *)
Definition tcp_stats (s : TcpServer.t) :=
  (TcpServer._frameCount s, TcpServer._bytesSent s,
   TcpServer._lastFrameTime s, TcpServer._fpsTimestamps s,
   TcpServer._fpsIndex s).

Definition camera_stats (s : CameraTcpServer.t) :=
  (CameraTcpServer._frameCount s, CameraTcpServer._bytesSent s,
   CameraTcpServer._lastFrameTime s, CameraTcpServer._fpsTimestamps s,
   CameraTcpServer._fpsIndex s).

Definition relay_stats (s : RelayClient.t) :=
  (RelayClient._frameCount s, RelayClient._totalBytesSent s,
   RelayClient._lastSendTime s).

(** The bytes the socket accepted according to a call log. *)
Fixpoint bytes_written (log : list sock_call) : Z :=
  match log with
  | [] => 0
  | Write _ sent :: log' => sent + bytes_written log'
  | _ :: log' => bytes_written log'
  end.

(** A server that has streamed close to 4 GiB to its client. *)
Definition server_near_4GiB : TcpServer.t :=
  {| TcpServer._client := true; TcpServer._port := 1234;
     TcpServer._targetFPS := 10; TcpServer._frameInterval := 100;
     TcpServer._lastFrameTime := 429496700;
     TcpServer._clientCount := 1; TcpServer._frameCount := 4294967;
     TcpServer._bytesSent := 4294967000;
     TcpServer._fpsTimestamps :=
       [429496700; 429495800; 429495900; 429496000; 429496100;
        429496200; 429496300; 429496400; 429496500; 429496600];
     TcpServer._fpsIndex := 1 |}.

(** *** Reconnection back-off

    A sequence of [run()] calls is given by the true times (in ms since
    boot, not wrapped) at which each call reads the clock: [t] in [run]
    itself and [t'], no earlier, where the attempt is recorded.  The clock
    readings the code sees are these times modulo 2^32. *)
Fixpoint chain (from : Z) (calls : list (Z * Z)) : Prop :=
  match calls with
  | [] => True
  | (t, t') :: rest => from <= t /\ t <= t' /\ chain t' rest
  end.

(** [backoff_respected retryDelay last calls made]: [made] lists how many
    connection attempts each call made, [last] is the time of the last
    attempt before the sequence.  No call makes more than one attempt; a
    call makes none before [retryDelay] ms have elapsed since the last
    attempt; and a call made once that much has elapsed (and less than a
    full period of the 32-bit clock) makes exactly one. *)
Fixpoint backoff_respected (retryDelay last : Z) (calls : list (Z * Z))
    (made : list nat) : Prop :=
  match calls, made with
  | [], [] => True
  | (t, t') :: calls', n :: made' =>
      (n = 0%nat \/ n = 1%nat) /\
      (n = 1%nat -> retryDelay <= t - last) /\
      (retryDelay <= t - last < 2 ^ 32 -> n = 1%nat) /\
      backoff_respected retryDelay
        (if decide (n = 1%nat) then t' else last) calls' made'
  | _, _ => False
  end.

(** What a [RelayClient::run] call at times [(t, t')] observes when the
    peer never accepts a connection. *)
Definition relay_failing_run (c : Z * Z) : RelayClient.run_io :=
  {| RelayClient.connected := false;
     RelayClient.millis_run := wrap32 c.1;
     RelayClient.millis_attempt := wrap32 c.2;
     RelayClient.connect := false |}.

(** The attempts made by successive [RelayClient::run] calls. *)
Fixpoint relay_runs (s : RelayClient.t) (calls : list (Z * Z)) : list nat :=
  match calls with
  | [] => []
  | c :: rest =>
      let r := RelayClient.run s (relay_failing_run c) in
      attempts r.2 :: relay_runs r.1 rest
  end.

(** The same for [CameraRelayClient::run], which reads the clock once
    before the attempt; the remaining observations are never made. *)
Definition camera_failing_run (t : Z) : CameraRelayClient.io :=
  {| CameraRelayClient.millis_attempt := wrap32 t;
     CameraRelayClient.connect := false;
     CameraRelayClient.connected := false;
     CameraRelayClient.millis_gate := wrap32 t;
     CameraRelayClient.fb := None;
     CameraRelayClient.write := 0;
     CameraRelayClient.millis_sent := wrap32 t;
     CameraRelayClient.millis_fps := wrap32 t |}.

Fixpoint camera_runs (s : CameraRelayClient.t) (times : list Z)
  : list nat :=
  match times with
  | [] => []
  | t :: rest =>
      let r := CameraRelayClient.run s (camera_failing_run t) in
      attempts r.2 :: camera_runs r.1.2 rest
  end.

Definition twice (t : Z) : Z * Z := (t, t).

(** Six [run()] calls around two expiries of the default 5000 ms delay. *)
Definition six_calls : list (Z * Z) :=
  [(1000, 1000); (4999, 4999); (5000, 5001); (6000, 6000);
   (10000, 10000); (10001, 10002)].

(** Any sequence of [TcpServer::sendData] calls, each with its own
    observations and payload. *)
Definition tcp_calls (s : TcpServer.t) (l : list (TcpServer.io * list Z))
  : TcpServer.t :=
  foldl (fun s c => (TcpServer.sendData s c.1 c.2).2) s l.

(** *** Scenarios *)

(** The ten clock readings of ten sends spaced exactly 100 ms apart. *)
Definition every_100ms : list Z :=
  [100; 200; 300; 400; 500; 600; 700; 800; 900; 1000].

(** A frame of 3500 bytes whose byte [i] is [i mod 256]. *)
Definition sample_frame : list Z :=
  map (fun i => Z.of_nat i mod 256) (seq 0 (Z.to_nat 3500)).

(** A relay client throttled to 10 FPS whose last send was at the last
    reading before the clock wraps. *)
Definition relay_at_wrap : RelayClient.t :=
  {| RelayClient._targetFPS := 10; RelayClient._retryDelay := 5000;
     RelayClient._isConnected := true;
     RelayClient._lastConnectionAttempt := 4294967000;
     RelayClient._lastSendTime := 4294967295;
     RelayClient._minSendInterval := 100; RelayClient._frameCount := 1;
     RelayClient._totalBytesSent := 3; RelayClient._startTime := 0 |}.

(** After [j] calls the ring index is at most [j] and slot 9 is still
    the 0 the constructor wrote. *)
Definition ring_below (j : nat) (s : TcpServer.t) : Prop :=
  (TcpServer._fpsIndex s <= j)%nat /\
  slot (TcpServer._fpsTimestamps s) 9 = 0.

(** *** Further vocabulary *)

(** The value of a sequence of bytes read in network byte order. *)
Definition be_value (bytes : list Z) : Z :=
  foldl (fun acc b => acc * 256 + b) 0 bytes.

(** The ring after the given readings have been recorded, oldest first. *)
Definition record_readings (s : TcpServer.t) (readings : list Z)
  : TcpServer.t :=
  foldl TcpServer.updateFPS s readings.

(** Successive frames sent over a link that transmits every datagram. *)
Definition send_all (s : UDPNetworkClient.t) (frames : list (list Z))
  : UDPNetworkClient.t :=
  foldl (fun s data => (UDPNetworkClient.send s (fun _ => true) data).1.2)
        s frames.

(** Whether the interval computed for the whole rate [n] is the quotient
    [1000 / n] rounded down (and the guard of [RelayClient] lets it
    through). *)
Definition whole_rate_ok (n : nat) : bool :=
  (0 <? of_ulong (Z.of_nat n))%float
  && match to_ulong (1000 / of_ulong (Z.of_nat n))%float with
     | Some i => i =? 1000 / Z.of_nat n
     | None => false
     end.

(** Bit [i] of a byte-swapped 32-bit (resp. 16-bit) value, in terms of the
    bits of the original. *)
Definition swap_bit (x i : Z) : bool :=
  if i <? 8 then Z.testbit x (i + 24)
  else if i <? 16 then Z.testbit x (i + 8)
  else if i <? 24 then Z.testbit x (i - 8)
  else if i <? 32 then Z.testbit x (i - 24)
  else false.

Definition swap16_bit (x i : Z) : bool :=
  if i <? 8 then Z.testbit x (i + 8)
  else if i <? 16 then Z.testbit x (i - 8)
  else false.

Definition camera_relay_stats (s : CameraRelayClient.t) :=
  (CameraRelayClient._frameCount s, CameraRelayClient._bytesSent s,
   CameraRelayClient._lastFrameTime s, CameraRelayClient._fpsTimestamps s,
   CameraRelayClient._fpsIndex s).

(** Whether a [RelayClient::run] call with these observations finds a
    reconnection due. *)
Definition retry_due (s : RelayClient.t) (e : RelayClient.run_io) : bool :=
  RelayClient._retryDelay s
  <=? wrap32 (RelayClient.millis_run e
              - RelayClient._lastConnectionAttempt s).

(** The number of [write] calls in a call log. *)
Fixpoint writes_made (log : list sock_call) : nat :=
  match log with
  | [] => 0
  | Write _ _ :: log' => S (writes_made log')
  | _ :: log' => writes_made log'
  end.

(** The socket never reports more bytes written than it was asked to
    write. *)
Definition socket_contract (log : list sock_call) : Prop :=
  Forall (fun c => match c with
                   | Write requested sent => 0 <= sent <= requested
                   | _ => True
                   end) log.

(** The answer of [_client.connected()] at loop test [i] of a
    [RelayClient::sendData] call. *)
Definition loop_test (e : RelayClient.send_io) (i : nat) : bool :=
  match RelayClient.writes e !! i with
  | Some (true, _) => true
  | _ => false
  end.

(** Successive [CameraTcpServer::run] calls: the statuses returned and the
    final state. *)
Fixpoint camera_server_runs (s : CameraTcpServer.t)
    (es : list CameraTcpServer.io)
  : list CameraTcpServer.Status * CameraTcpServer.t :=
  match es with
  | [] => ([], s)
  | e :: rest =>
      let r := CameraTcpServer.run s e in
      let rs := camera_server_runs r.2 rest in
      (r.1 :: rs.1, rs.2)
  end.

(** The number of [OK] among the statuses. *)
Fixpoint frames_ok (statuses : list CameraTcpServer.Status) : Z :=
  match statuses with
  | [] => 0
  | CameraTcpServer.OK :: rest => 1 + frames_ok rest
  | _ :: rest => frames_ok rest
  end.

(** A camera server, fifth client on the books, whose client has gone
    away, and a tick on which another client is waiting 50 ms after the
    last frame (too early for the 100 ms gate). *)
Definition camera_dead_client : CameraTcpServer.t :=
  {| CameraTcpServer._port := 81;
     CameraTcpServer._targetFPS := 10;
     CameraTcpServer._hasClient := true;
     CameraTcpServer._cameraInitialized := true;
     CameraTcpServer._lastFrameTime := 0;
     CameraTcpServer._frameInterval := 100;
     CameraTcpServer._clientCount := 4;
     CameraTcpServer._frameCount := 0;
     CameraTcpServer._bytesSent := 0;
     CameraTcpServer._fpsTimestamps := replicate 10 0;
     CameraTcpServer._fpsIndex := 0 |}.

Definition pending_tick : CameraTcpServer.io :=
  {| CameraTcpServer.connected := false;
     CameraTcpServer.available := true;
     CameraTcpServer.millis_gate := 50;
     CameraTcpServer.fb := Some [1; 2; 3];
     CameraTcpServer.write := 3;
     CameraTcpServer.millis_sent := 50;
     CameraTcpServer.millis_fps := 50 |}.

(** * Properties *)

(** ** The rolling rate measurement *)

(** C1 (evaluation of the code at the scenario of the claim).  A server
    built for 10 FPS accepts a client and makes ten successful sends at
    100, 200, ..., 1000 ms.  The ring then holds these ten readings and
    [_fpsIndex] is back at slot 0, the oldest one; [getActualFPS] subtracts
    slot 1 (the second oldest, 200) from slot 0 (the oldest, 100) instead of
    the oldest from the newest, so the unsigned span is 2^32 - 100 and the
    reported rate is about 0.000002, not 10 (the value the same division
    gives for the span from the oldest to the newest reading, 900 ms).  [CameraTcpServer] carries the
    same code and gives the same value. *)
Theorem C1_getActualFPS_ten_sends_100ms :
  (exists s0, TcpServer.new 1234 10 = Some s0 /\
     let s := TcpServer.sends (TcpServer.run s0 false true)
                [1; 2; 3] every_100ms in
     TcpServer._frameCount s = 10 /\
     TcpServer._fpsTimestamps s = every_100ms /\
     TcpServer._fpsIndex s = 0%nat /\
     TcpServer.elapsed s = 2 ^ 32 - 100 /\
     TcpServer.getActualFPS s = to_float (9000 / 4294967196)%float /\
     (TcpServer.getActualFPS s <? 0.0000152587890625)%float = true /\
     (TcpServer.getActualFPS s =? 10)%float = false /\
     to_float (9000 / of_ulong (wrap32 (slot (TcpServer._fpsTimestamps s) 9
                                        - slot (TcpServer._fpsTimestamps s) 0)))
     = 10%float) /\
  (exists c0, CameraTcpServer.new 1234 10 = Some c0 /\
     let c := CameraTcpServer.ticks (snd (CameraTcpServer.begin c0 true))
                [1; 2; 3] every_100ms in
     CameraTcpServer._frameCount c = 10 /\
     CameraTcpServer._fpsTimestamps c = every_100ms /\
     CameraTcpServer._fpsIndex c = 0%nat /\
     CameraTcpServer.elapsed c = 2 ^ 32 - 100 /\
     CameraTcpServer.getActualFPS c = to_float (9000 / 4294967196)%float /\
     (CameraTcpServer.getActualFPS c <? 0.0000152587890625)%float = true /\
     (CameraTcpServer.getActualFPS c =? 10)%float = false).
Proof.
  split; eexists; (split; [reflexivity |]); vm_compute; repeat split.
Qed.

(** ** The datagram transport *)

Section Fragmentation.
Import UDPNetworkClient.

Lemma ceil_div_step a :
  0 < a -> ceil_div a 1400 = 1 + ceil_div (a - Z.min 1400 a) 1400.
Proof.
  intros Ha. unfold ceil_div.
  destruct (Z_le_gt_dec a 1400) as [Hle | Hgt].
  - rewrite Z.min_r by lia. replace (a - a) with 0 by lia.
    replace (- a) with (-1 * 1400 + (1400 - a)) by lia.
    rewrite Z.div_add_l by lia. rewrite Z.div_small by lia. reflexivity.
  - rewrite Z.min_l by lia.
    replace (- a) with (-1 * 1400 + - (a - 1400)) by lia.
    rewrite Z.div_add_l by lia. lia.
Qed.

Lemma ceil_div_nonpos a : a <= 0 -> Z.to_nat (ceil_div a 1400) = 0%nat.
Proof.
  intros Ha. unfold ceil_div.
  assert (0 <= (- a) / 1400) by (apply Z.div_pos; lia). lia.
Qed.

Lemma fragments_step (len off : Z) :
  off < len ->
  Z.to_nat (ceil_div (len - off) 1400)
  = S (Z.to_nat (ceil_div (len - (off + Z.min 1400 (len - off))) 1400)).
Proof.
  intros Hlt. rewrite (ceil_div_step (len - off)) by lia.
  replace (len - off - Z.min 1400 (len - off))
    with (len - (off + Z.min 1400 (len - off))) by lia.
  set (r := len - (off + Z.min 1400 (len - off))).
  assert (0 <= r) by (unfold r; lia).
  assert (0 <= ceil_div r 1400).
  { unfold ceil_div.
    assert ((- r) / 1400 <= 0); [| lia].
    apply Z.div_le_upper_bound; lia. }
  lia.
Qed.

(** The loop succeeds exactly when every [endPacket] it calls succeeds; it
    calls one per fragment still to be sent, and transmits a datagram for
    each call that succeeded before the first failure. *)
Lemma send_loop_spec ep fid tf data off idx k :
  let r := send_loop ep fid tf data off idx k in
  let n := Z.to_nat (ceil_div (Z.of_nat (length data) - off) 1400) in
  (fst r = true <-> forall j, (j < n)%nat -> ep (k + j)%nat = true) /\
  (fst r = true -> length (snd r) = n) /\
  (length (snd r) <= n)%nat.
Proof.
  funelim (send_loop ep fid tf data off idx k); cbv zeta.
  - unfold MAX_PAYLOAD_SIZE in *.
    rewrite (fragments_step _ _ l).
    destruct H as (Hiff & Hlen & Hle).
    destruct (endPacket k) eqn:Hk; cbn [fst snd length].
    + repeat split.
      * intros Hr [| j] Hj;
          [rewrite Nat.add_0_r; exact Hk |].
        replace (k + S j)%nat with (S k + j)%nat by lia.
        apply Hiff; [exact Hr | lia].
      * intros Hall. apply Hiff. intros j Hj.
        replace (S k + j)%nat with (k + S j)%nat by lia.
        apply Hall. lia.
      * intros Hr. f_equal. apply Hlen, Hr.
      * lia.
    + repeat split.
      * discriminate.
      * intros Hall. specialize (Hall 0%nat).
        rewrite Nat.add_0_r, Hk in Hall. apply Hall. lia.
      * discriminate.
      * lia.
  - rewrite ceil_div_nonpos by lia. cbn [fst snd length].
    repeat split; intros; solve [reflexivity | lia].
Qed.

Lemma send_loop_all_ok ep fid tf data :
  (forall j, (j < fragments (Z.of_nat (length data)))%nat -> ep j = true) ->
  exists pkts, send_loop ep fid tf data 0 0 0 = (true, pkts) /\
               length pkts = fragments (Z.of_nat (length data)).
Proof.
  intros Hall.
  destruct (send_loop_spec ep fid tf data 0 0 0) as (Hiff & Hlen & _).
  rewrite Z.sub_0_r in *. fold (fragments (Z.of_nat (length data))) in *.
  destruct (send_loop ep fid tf data 0 0 0) as [ok pkts] eqn:E.
  cbn [fst snd] in *.
  assert (ok = true) as -> by (apply Hiff; intros j Hj; cbn [Nat.add]; apply Hall, Hj).
  exists pkts. split; [reflexivity | apply Hlen; reflexivity].
Qed.

Lemma send_loop_some_fail ep fid tf data j :
  (j < fragments (Z.of_nat (length data)))%nat -> ep j = false ->
  fst (send_loop ep fid tf data 0 0 0) = false.
Proof.
  intros Hj Hf.
  destruct (send_loop_spec ep fid tf data 0 0 0) as (Hiff & _ & _).
  rewrite Z.sub_0_r in *. fold (fragments (Z.of_nat (length data))) in *.
  destruct (fst (send_loop ep fid tf data 0 0 0)); [| reflexivity].
  pose proof (proj1 Hiff eq_refl j Hj) as Ht. cbn [Nat.add] in Ht.
  rewrite Ht in Hf. discriminate.
Qed.

Lemma send_connected_ok s ep data :
  _connected s = true ->
  (forall j, (j < fragments (Z.of_nat (length data)))%nat -> ep j = true) ->
  exists pkts,
    send s ep data
    = (Z.of_nat (length data), set_frameId (wrap32 (_frameId s + 1)) s, pkts)
    /\ length pkts = fragments (Z.of_nat (length data)).
Proof.
  intros Hc Hall. unfold send. rewrite Hc. cbn [negb].
  match goal with |- context [send_loop ep ?f ?tf data 0 0 0] =>
    destruct (send_loop_all_ok ep f tf data Hall) as (pkts & -> & Hlen) end.
  exists pkts. split; [reflexivity | exact Hlen].
Qed.

Lemma send_connected_fail s ep data j :
  (j < fragments (Z.of_nat (length data)))%nat -> ep j = false ->
  (send s ep data).1.1 = 0 /\ (send s ep data).1.2 = s.
Proof.
  intros Hj Hf. unfold send.
  destruct (_connected s); cbn [negb]; [| split; reflexivity].
  match goal with |- context [send_loop ep ?f ?tf data 0 0 0] =>
    pose proof (send_loop_some_fail ep f tf data j Hj Hf) as Hfalse;
    destruct (send_loop ep f tf data 0 0 0) as [ok pkts] end.
  cbn [fst] in Hfalse. subst ok. split; reflexivity.
Qed.

(** C2 (evaluation of the code at the empty payload).  A connected client
    asked to send an empty payload computes [totalFragments = 1], but its
    [while (offset < len)] loop has nothing to iterate over: no datagram is
    handed to the socket, the call returns 0 -- the value that also reports
    failure -- and the frame id advances. *)
Theorem C2_send_empty_payload (s : t) (ep : nat -> bool) :
  _connected s = true ->
  send s ep [] = (0, set_frameId (wrap32 (_frameId s + 1)) s, []).
Proof.
  intros Hc. unfold send. rewrite Hc. reflexivity.
Qed.

Lemma C2_send_empty_payload_witness :
  _connected (connect new (Some 3232235826) 4444).1.2 = true /\
  send (connect new (Some 3232235826) 4444).1.2 (fun _ => true) []
  = (0, set_frameId 1 (connect new (Some 3232235826) 4444).1.2, []).
Proof.
  split; [reflexivity |].
  exact (C2_send_empty_payload
           (connect new (Some 3232235826) 4444).1.2 (fun _ => true) eq_refl).
Defined.

(** C9.  [send] never reports partial success: whatever the state, the
    payload and the behaviour of the socket, it returns 0 or the full
    length.  It returns 0 when the client is not connected and when the
    transmission of some fragment fails, and the full length when the
    client is connected and every fragment is transmitted. *)
Theorem C9_send_returns_zero_or_len (s : t) (ep : nat -> bool)
    (data : list Z) :
  let len := Z.of_nat (length data) in
  let n := (send s ep data).1.1 in
  (n = 0 \/ n = len) /\
  (_connected s = false -> n = 0) /\
  (forall j, (j < fragments len)%nat -> ep j = false -> n = 0) /\
  (_connected s = true ->
   (forall j, (j < fragments len)%nat -> ep j = true) -> n = len).
Proof.
  cbv zeta. repeat split.
  - unfold send. destruct (_connected s); cbn [negb]; [| left; reflexivity].
    match goal with |- context [send_loop ep ?f ?tf data 0 0 0] =>
      destruct (send_loop ep f tf data 0 0 0) as [[] pkts] end;
      [right | left]; reflexivity.
  - intros Hc. unfold send. rewrite Hc. reflexivity.
  - intros j Hj Hf. apply (send_connected_fail s ep data j Hj Hf).
  - intros Hc Hall.
    destruct (send_connected_ok s ep data Hc Hall) as (pkts & -> & _).
    reflexivity.
Qed.

Lemma C9_send_returns_zero_or_len_witness :
  (send (connect new (Some 3232235826) 4444).1.2
        (fun j => negb (Nat.eqb j 1)) (replicate 3000 7)).1.1 = 0 /\
  (send (connect new (Some 3232235826) 4444).1.2
        (fun _ => true) (replicate 3000 7)).1.1 = 3000.
Proof.
  split.
  - apply (proj1 (proj2 (proj2
      (C9_send_returns_zero_or_len (connect new (Some 3232235826) 4444).1.2
         (fun j => negb (Nat.eqb j 1)) (replicate 3000 7)))) 1%nat);
      [vm_compute; lia | reflexivity].
  - apply (proj2 (proj2 (proj2
      (C9_send_returns_zero_or_len (connect new (Some 3232235826) 4444).1.2
         (fun _ => true) (replicate 3000 7)))));
      [reflexivity | intros; reflexivity].
Defined.

(** C5.  The frame identifier of the datagram transport:
    - after a [send] on a connected client all of whose fragments are
      transmitted, it is the previous identifier plus 1 modulo 2^32 (and
      the call returns the full length);
    - after a [send] in which the transmission of some fragment fails, and
      after a [send] on a client that is not connected, it is unchanged
      (and the call returns 0);
    - from 2^32 - 1 a successful [send] takes it to 0;
    - a [connect] that resolves the peer, and every handshake sent, reset
      it to 0. *)
Theorem C5_frame_id (s : t) (ep : nat -> bool) (data : list Z) :
  let len := Z.of_nat (length data) in
  let r := send s ep data in
  (_connected s = true ->
   (forall j, (j < fragments len)%nat -> ep j = true) ->
   r.1.1 = len /\ _frameId r.1.2 = (_frameId s + 1) mod 2 ^ 32 /\
   (_frameId s = 2 ^ 32 - 1 -> _frameId r.1.2 = 0)) /\
  (forall j, (j < fragments len)%nat -> ep j = false ->
   r.1.1 = 0 /\ _frameId r.1.2 = _frameId s) /\
  (_connected s = false -> r.1.1 = 0 /\ _frameId r.1.2 = _frameId s) /\
  (forall ip port,
     (connect s (Some ip) port).1.1 = true /\
     _frameId (connect s (Some ip) port).1.2 = 0 /\
     length (connect s (Some ip) port).2 = 1%nat) /\
  (_connected s = true ->
   _frameId (sendHandshake s).1 = 0 /\ length (sendHandshake s).2 = 1%nat).
Proof.
  cbv zeta. split; [| split; [| split; [| split]]].
  - intros Hc Hall.
    destruct (send_connected_ok s ep data Hc Hall) as (pkts & -> & _).
    cbn [fst snd set_frameId _frameId]. unfold wrap32.
    split; [reflexivity | split; [reflexivity |]].
    intros ->. reflexivity.
  - intros j Hj Hf.
    destruct (send_connected_fail s ep data j Hj Hf) as [-> ->].
    split; reflexivity.
  - intros Hc. unfold send. rewrite Hc. split; reflexivity.
  - intros ip port. repeat split.
  - intros Hc. unfold sendHandshake. rewrite Hc. split; reflexivity.
Qed.

Lemma C5_frame_id_witness :
  let s := set_frameId 7 (connect new (Some 3232235826) 4444).1.2 in
  _connected s = true /\
  _frameId (send s (fun _ => true) (replicate 3000 7)).1.2 = 8 /\
  _frameId (send s (fun j => negb (Nat.eqb j 2)) (replicate 3000 7)).1.2 = 7
  /\ _frameId (sendHandshake s).1 = 0.
Proof.
  cbv zeta.
  pose proof (C5_frame_id
                (set_frameId 7 (connect new (Some 3232235826) 4444).1.2)
                (fun _ => true) (replicate 3000 7)) as Hok.
  pose proof (C5_frame_id
                (set_frameId 7 (connect new (Some 3232235826) 4444).1.2)
                (fun j => negb (Nat.eqb j 2)) (replicate 3000 7)) as Hfail.
  cbv zeta in Hok, Hfail.
  destruct Hok as (Hok & _ & _ & _ & Hhs).
  destruct Hfail as (_ & Hfail & _).
  split; [reflexivity |]. split; [| split].
  - apply Hok; [reflexivity | intros; reflexivity].
  - apply (Hfail 2%nat); [vm_compute; lia | reflexivity].
  - apply Hhs. reflexivity.
Defined.

(** *** The wire format *)

Lemma byte_div_mod x n :
  0 <= n -> x / 2 ^ n mod 256 = Z.land (Z.shiftr x n) (Z.ones 8).
Proof.
  intros Hn. rewrite Z.land_ones by lia.
  rewrite Z.shiftr_div_pow2 by lia. reflexivity.
Qed.

Lemma byte_mod x : x mod 256 = Z.land (Z.shiftr x 0) (Z.ones 8).
Proof. rewrite Z.shiftr_0_r, Z.land_ones by lia. reflexivity. Qed.

(** What [htonl] leaves in memory is the big-endian encoding. *)
Lemma htonl_be x : bytes_of_u32 (htonl x) = be32 x.
Proof.
  unfold bytes_of_u32, be32, htonl.
  rewrite !byte_div_mod by lia. rewrite byte_mod.
  change 255 with (Z.ones 8).
  change 4278190080 with (Z.shiftl (Z.ones 8) 24).
  change 16711680 with (Z.shiftl (Z.ones 8) 16).
  change 65280 with (Z.shiftl (Z.ones 8) 8).
  f_equal; [| f_equal; [| f_equal; [| f_equal]]]; Z.bitblast.
Qed.

Lemma htons_be x : bytes_of_u16 (htons x) = be16 x.
Proof.
  unfold bytes_of_u16, be16, htons, wrap16.
  rewrite !byte_div_mod by lia. rewrite byte_mod.
  rewrite <- !Z.land_ones by lia.
  change 255 with (Z.ones 8).
  change 65280 with (Z.shiftl (Z.ones 8) 8).
  f_equal; [| f_equal]; Z.bitblast.
Qed.

Lemma ceil_div_bounds a :
  1400 * (ceil_div a 1400 - 1) < a <= 1400 * ceil_div a 1400.
Proof.
  unfold ceil_div.
  pose proof (Z.div_mod (- a) 1400 ltac:(lia)) as Hdm.
  pose proof (Z.mod_pos_bound (- a) 1400 ltac:(lia)) as Hm.
  lia.
Qed.

Lemma ceil_div_code a :
  0 <= a -> (a + 1400 - 1) / 1400 = ceil_div a 1400.
Proof.
  intros Ha. pose proof (ceil_div_bounds a) as Hb.
  symmetry.
  apply (Z.div_unique _ _ _ (a + 1400 - 1 - 1400 * ceil_div a 1400)); lia.
Qed.

Lemma send_loop_unfold ep fid tf data off idx k :
  send_loop ep fid tf data off idx k
  = if decide (off < Z.of_nat (length data)) then
      if ep k then
        let r := send_loop ep fid tf data
                   (off + Z.min 1400 (Z.of_nat (length data) - off))
                   (wrap16 (idx + 1)) (S k) in
        (r.1, packet fid idx tf data off
                (Z.min 1400 (Z.of_nat (length data) - off)) :: r.2)
      else (false, [])
    else (true, []).
Proof.
  simp send_loop.
  destruct (Z_lt_dec off (Z.of_nat (length data))) as [Hlt | Hge];
    simp send_loop; case_decide; try lia; reflexivity.
Qed.

Lemma packet_wire fid tf data (i : nat) :
  Z.of_nat (length data) < 2 ^ 32 ->
  packet fid (Z.of_nat i) tf data (1400 * Z.of_nat i)
    (Z.min 1400 (Z.of_nat (length data) - 1400 * Z.of_nat i))
  = wire_header fid (Z.of_nat i) tf (Z.of_nat (length data))
    ++ take 1400 (drop (1400 * i) data).
Proof.
  intros Hlen. unfold packet, wire_header.
  rewrite !htonl_be, !htons_be. unfold wrap32.
  rewrite (Z.mod_small (Z.of_nat (length data))) by lia.
  rewrite <- !app_assoc. do 4 f_equal.
  replace (Z.to_nat (1400 * Z.of_nat i)) with (1400 * i)%nat by lia.
  destruct (Z_le_gt_dec 1400 (Z.of_nat (length data) - 1400 * Z.of_nat i)).
  - rewrite Z.min_l by lia. reflexivity.
  - rewrite Z.min_r by lia.
    rewrite !take_ge; [reflexivity | |]; rewrite length_drop; lia.
Qed.

Lemma send_loop_packets ep fid tf data (n : nat) :
  n = fragments (Z.of_nat (length data)) -> Z.of_nat n <= 65535 ->
  Z.of_nat (length data) < 2 ^ 32 ->
  (forall j, (j < n)%nat -> ep j = true) ->
  forall m i, (i + m = n)%nat ->
    send_loop ep fid tf data
      (Z.min (1400 * Z.of_nat i) (Z.of_nat (length data))) (Z.of_nat i) i
    = (true,
       map (fun j => wire_header fid (Z.of_nat j) tf (Z.of_nat (length data))
                     ++ take 1400 (drop (1400 * j) data)) (seq i m)).
Proof.
  intros Hn Hmax Hlen Hall.
  pose proof (ceil_div_bounds (Z.of_nat (length data))) as Hb.
  assert (Z.of_nat n = ceil_div (Z.of_nat (length data)) 1400) as Hn'.
  { subst n. unfold fragments. rewrite Z2Nat.id; [reflexivity |].
    unfold ceil_div.
    assert ((- Z.of_nat (length data)) / 1400 <= 0); [| lia].
    apply Z.div_le_upper_bound; lia. }
  rewrite <- Hn' in Hb.
  induction m as [| m IH]; intros i Him; rewrite send_loop_unfold.
  - rewrite Z.min_r by lia. case_decide; [lia | reflexivity].
  - rewrite Z.min_l by lia. case_decide; [| lia].
    rewrite (Hall i) by lia. cbv zeta.
    replace (1400 * Z.of_nat i
             + Z.min 1400 (Z.of_nat (length data) - 1400 * Z.of_nat i))
      with (Z.min (1400 * Z.of_nat (S i)) (Z.of_nat (length data))) by lia.
    replace (wrap16 (Z.of_nat i + 1)) with (Z.of_nat (S i))
      by (unfold wrap16; rewrite Z.mod_small; lia).
    rewrite (IH (S i)) by lia. cbn [fst snd seq map].
    rewrite packet_wire by exact Hlen. reflexivity.
Qed.

Lemma send_wire s ep data :
  _connected s = true ->
  (forall j, (j < fragments (Z.of_nat (length data)))%nat -> ep j = true) ->
  Z.of_nat (length data) <= 65535 * 1400 ->
  (send s ep data).2 = wire_fragments (_frameId s) data.
Proof.
  intros Hc Hall Hlen. unfold send, wire_fragments. rewrite Hc. cbn [negb].
  cbv zeta. set (len := Z.of_nat (length data)) in *.
  set (n := fragments len) in *.
  pose proof (ceil_div_bounds len) as Hb.
  assert (Z.of_nat n = ceil_div len 1400) as Hn.
  { unfold n, fragments. rewrite Z2Nat.id; [reflexivity |].
    unfold ceil_div.
    assert ((- len) / 1400 <= 0); [| lia].
    apply Z.div_le_upper_bound; lia. }
  match goal with |- context [send_loop ep (_frameId s) ?tf data 0 0 0] =>
    set (count := tf) end.
  pose proof (send_loop_packets ep (_frameId s) count data n eq_refl
                ltac:(lia) ltac:(lia) Hall n 0%nat eq_refl) as Hloop.
  change (1400 * Z.of_nat 0) with 0 in Hloop.
  rewrite Z.min_l in Hloop by lia. change (Z.of_nat 0) with 0 in Hloop.
  rewrite Hloop. cbn [snd].
  destruct (decide (n = 0%nat)) as [-> | Hpos]; [reflexivity |].
  assert (count = Z.of_nat n) as ->; [| reflexivity].
  unfold count, MAX_PAYLOAD_SIZE, wrap32, wrap16.
  rewrite (Z.mod_small (len + 1400 - 1)) by lia.
  rewrite ceil_div_code by lia. rewrite <- Hn.
  rewrite Z.mod_small by lia.
  destruct (Z.of_nat n =? 0) eqn:E; [lia | reflexivity].
Qed.

(** C6.  On a connected client whose socket transmits every datagram:
    - [send] returns the full length and transmits [ceil (L / 1400)]
      datagrams for a payload of [L] bytes;
    - for a payload of up to 65535 fragments the datagrams are, in order,
      the fragments of the wire format: a 12-byte big-endian header with
      the frame id, the 0-based index, the fragment count and the frame
      size, followed by the next slice of at most 1400 payload bytes;
    - for a payload of 3500 bytes these are exactly three datagrams, with
      indices 0, 1, 2, count 3, the same frame id and size 3500 in each,
      and payloads of 1400, 1400 and 700 bytes. *)
Theorem C6_fragmentation (s : t) (ep : nat -> bool) (data : list Z) :
  let len := Z.of_nat (length data) in
  let id := _frameId s in
  _connected s = true ->
  (forall j, (j < fragments len)%nat -> ep j = true) ->
  (send s ep data).1.1 = len /\
  Z.of_nat (length (send s ep data).2) = ceil_div len 1400 /\
  (len <= 65535 * 1400 -> (send s ep data).2 = wire_fragments id data) /\
  (len = 3500 ->
   (send s ep data).2
   = [wire_header id 0 3 3500 ++ take 1400 data;
      wire_header id 1 3 3500 ++ take 1400 (drop 1400 data);
      wire_header id 2 3 3500 ++ drop 2800 data] /\
   Z.of_nat (length (take 1400 data)) = 1400 /\
   Z.of_nat (length (take 1400 (drop 1400 data))) = 1400 /\
   Z.of_nat (length (drop 2800 data)) = 700).
Proof.
  cbv zeta. intros Hc Hall.
  destruct (send_connected_ok s ep data Hc Hall) as (pkts & Hsend & Hn).
  split; [rewrite Hsend; reflexivity |].
  split.
  { rewrite Hsend. cbn [snd]. rewrite Hn. unfold fragments.
    rewrite Z2Nat.id; [reflexivity |].
    pose proof (ceil_div_bounds (Z.of_nat (length data))). lia. }
  split; [apply (send_wire s ep data Hc Hall) |].
  intros H3500.
  rewrite (send_wire s ep data Hc Hall) by lia.
  unfold wire_fragments, wire_fragment. rewrite H3500.
  change (fragments 3500) with 3%nat. cbn [seq map Z.of_nat].
  rewrite !length_take, !length_drop.
  split; [| lia].
  change (1400 * 0)%nat with 0%nat. change (1400 * 1)%nat with 1400%nat.
  change (1400 * 2)%nat with 2800%nat.
  rewrite drop_0.
  rewrite (take_ge (drop 2800 data)) by (rewrite length_drop; lia).
  reflexivity.
Qed.

Lemma C6_fragmentation_witness :
  let s := set_frameId 16909060 (connect new (Some 3232235826) 4444).1.2 in
  _connected s = true /\
  map (take 12) (send s (fun _ => true) sample_frame).2
  = [[1; 2; 3; 4; 0; 0; 0; 3; 0; 0; 13; 172];
     [1; 2; 3; 4; 0; 1; 0; 3; 0; 0; 13; 172];
     [1; 2; 3; 4; 0; 2; 0; 3; 0; 0; 13; 172]].
Proof.
  cbv zeta. split; [reflexivity |].
  pose proof (C6_fragmentation
                (set_frameId 16909060
                   (connect new (Some 3232235826) 4444).1.2)
                (fun _ => true) sample_frame eq_refl
                (fun _ _ => eq_refl)) as H.
  cbv zeta in H. destruct H as (_ & _ & _ & H).
  destruct (H eq_refl) as (-> & _). reflexivity.
Defined.

End Fragmentation.

(** ** The rate gate *)

Lemma wrap32_sub_add last d :
  wrap32 (wrap32 (last + d) - last) = wrap32 d.
Proof.
  unfold wrap32. rewrite Zminus_mod_idemp_l. f_equal. lia.
Qed.

(** The client-role guard: a rate that is not positive (zero, negative or
    NaN) never reaches the division; the interval becomes 0 and the gate
    always permits. *)
Lemma RelayClient_nonpositive_rate_unlimited (s : RelayClient.t)
    (fps : float) :
  (0 <? fps)%float = false ->
  exists s', RelayClient.setTargetFPS s fps = Some s' /\
             RelayClient._minSendInterval s' = 0 /\
             forall now, RelayClient.canSend s' now = true.
Proof.
  intros Hfps. unfold RelayClient.setTargetFPS, RelayClient.updateFPSInterval.
  cbn [RelayClient._targetFPS]. rewrite Hfps.
  eexists. split; [reflexivity |]. split; [reflexivity |].
  intros now. reflexivity.
Qed.

Lemma RelayClient_new_nonpositive_rate_unlimited (fps : float) :
  (0 <? fps)%float = false ->
  exists s', RelayClient.new fps = Some s' /\
             RelayClient._minSendInterval s' = 0 /\
             forall now, RelayClient.canSend s' now = true.
Proof.
  intros Hfps. unfold RelayClient.new, RelayClient.updateFPSInterval.
  cbn [RelayClient._targetFPS]. rewrite Hfps.
  eexists. split; [reflexivity |]. split; [reflexivity |].
  intros now. reflexivity.
Qed.

(** C3 (evaluation of the server classes at rate 0 and at a negative
    rate).  [TcpServer] and [CameraTcpServer] have no guard: both the
    constructor and [setTargetFPS] evaluate [(unsigned long)(1000.0 / fps)]
    for every [fps].  At [fps = 0] the division is a division by zero and
    yields infinity, at [fps = -10] it yields -100; neither has a value as
    an [unsigned long], so no interval is defined, let alone the interval 0
    that would mean "unlimited".  [CameraRelayClient] computes its
    interval the same way.  With a positive rate the same code gives the
    expected interval. *)
Theorem C3_server_rate_not_guarded :
  (1000 / 0)%float = infinity /\
  to_ulong (1000 / 0)%float = None /\
  to_ulong (1000 / -10)%float = None /\
  TcpServer.new 1234 0 = None /\
  CameraTcpServer.new 1234 0 = None /\
  (forall s, TcpServer.setTargetFPS s 0 = None) /\
  (forall s, CameraTcpServer.setTargetFPS s 0 = None) /\
  (forall s, TcpServer.setTargetFPS s (-10) = None) /\
  (forall s, CameraTcpServer.setTargetFPS s (-10) = None) /\
  CameraRelayClient.new 0 = None /\
  (forall s, CameraRelayClient.setTargetFPS s 0 = None) /\
  (forall s, exists s', TcpServer.setTargetFPS s 10 = Some s' /\
                        TcpServer._frameInterval s' = 100).
Proof.
  repeat split. intros s. eexists. split; reflexivity.
Qed.

(** C7 (counterexample).  A [RelayClient] built for 10 FPS (interval
    100 ms) connects and sends a frame at clock reading 2^32 - 1.  One
    millisecond later the clock has wrapped to 0, which is below the stored
    last-send timestamp, and [canSend] denies the send. *)
Lemma C7_relay_gate_denies_after_wrap :
  exists s0, RelayClient.new 10 = Some s0 /\
    let s1 := (RelayClient.run s0
                 {| RelayClient.connected := false;
                    RelayClient.millis_run := 4294967000;
                    RelayClient.millis_attempt := 4294967000;
                    RelayClient.connect := true |}).1 in
    let r := RelayClient.sendData s1
               {| RelayClient.millis_gate := 4294967295;
                  RelayClient.writes := [(true, 3)];
                  RelayClient.millis_sent := 4294967295 |} [1; 2; 3] in
    r.1.1 = true /\
    RelayClient._minSendInterval r.1.2 = 100 /\
    RelayClient._lastSendTime r.1.2 = 4294967295 /\
    0 < RelayClient._lastSendTime r.1.2 /\
    RelayClient.canSend r.1.2 0 = false.
Proof.
  eexists. split; [reflexivity |]. vm_compute. repeat split.
Qed.

(** C7 (amended).  Whenever the clock reading is strictly below the stored
    last-send timestamp, the gates of [TcpServer], [CameraTcpServer] and
    [CameraRelayClient] permit the send, for every interval.  The gate of
    [RelayClient] has no such test: it permits exactly when the interval is
    0 or the unsigned 32-bit difference [now - last] has reached the
    interval; a wrapped clock therefore never blocks it for good: at the
    reading [last + interval] (modulo 2^32) it permits again. *)
Theorem C7_gate_on_wraparound :
  (forall s now, now < TcpServer._lastFrameTime s ->
                 (TcpServer.canSend s now).1 = true) /\
  (forall s now, now < CameraTcpServer._lastFrameTime s ->
                 CameraTcpServer.canSend s now = true) /\
  (forall s now, now < CameraRelayClient._lastFrameTime s ->
                 CameraRelayClient.canSend s now = true) /\
  (forall s now,
     RelayClient.canSend s now = true <->
     RelayClient._minSendInterval s = 0 \/
     RelayClient._minSendInterval s
     <= (now - RelayClient._lastSendTime s) mod 2 ^ 32) /\
  (forall s,
     0 <= RelayClient._minSendInterval s < 2 ^ 32 ->
     RelayClient.canSend s
       ((RelayClient._lastSendTime s + RelayClient._minSendInterval s)
        mod 2 ^ 32) = true).
Proof.
  split; [| split; [| split; [| split]]].
  - intros s now Hlt. unfold TcpServer.canSend.
    destruct (Z.ltb_spec now (TcpServer._lastFrameTime s)); [reflexivity | lia].
  - intros s now Hlt. unfold CameraTcpServer.canSend.
    destruct (Z.ltb_spec now (CameraTcpServer._lastFrameTime s));
      [reflexivity | lia].
  - intros s now Hlt. unfold CameraRelayClient.canSend.
    destruct (Z.ltb_spec now (CameraRelayClient._lastFrameTime s));
      [reflexivity | lia].
  - intros s now. unfold RelayClient.canSend, wrap32.
    destruct (Z.eqb_spec (RelayClient._minSendInterval s) 0) as [E | E].
    + split; [left; exact E | reflexivity].
    + rewrite Z.leb_le. split; [right; assumption | intros [? | ?]; [lia | assumption]].
  - intros s Hiv. unfold RelayClient.canSend.
    destruct (RelayClient._minSendInterval s =? 0); [reflexivity |].
    fold (wrap32 (RelayClient._lastSendTime s
                  + RelayClient._minSendInterval s)).
    rewrite wrap32_sub_add. unfold wrap32. rewrite Z.mod_small by lia.
    apply Z.leb_refl.
Qed.

Lemma C7_gate_on_wraparound_witness :
  (exists s, TcpServer.new 1234 10 = Some s /\
             (TcpServer.canSend (TcpServer.sends (TcpServer.run s false true)
                                   [1; 2; 3] [4294967295]) 0).1 = true) /\
  RelayClient.canSend relay_at_wrap 99 = true.
Proof.
  destruct C7_gate_on_wraparound as (Hsrv & _ & _ & _ & Hrelay).
  split.
  - eexists. split; [reflexivity |]. apply Hsrv. vm_compute. reflexivity.
  - refine (Hrelay relay_at_wrap _). vm_compute.
    split; [discriminate | reflexivity].
Defined.

(** ** The client sessions *)

(** C4 (counterexample).  A [CameraRelayClient] with a ready camera
    connects and sends a 3-byte frame in one [run]: the call returns [OK],
    the socket saw a connect and a write but no stop, and [isConnected()]
    is still true. *)
Lemma C4_camera_relay_stays_connected :
  exists s0, CameraRelayClient.new 10 = Some s0 /\
    let r := CameraRelayClient.run (CameraRelayClient.begin s0 true).2
               {| CameraRelayClient.millis_attempt := 5000;
                  CameraRelayClient.connect := true;
                  CameraRelayClient.connected := true;
                  CameraRelayClient.millis_gate := 5000;
                  CameraRelayClient.fb := Some [1; 2; 3];
                  CameraRelayClient.write := 3;
                  CameraRelayClient.millis_sent := 5000;
                  CameraRelayClient.millis_fps := 5000 |} in
    r.1.1 = CameraRelayClient.OK /\
    r.2 = [Connect; Write 3 3] /\
    CameraRelayClient.isConnected r.1.2 = true.
Proof.
  eexists. split; [reflexivity |]. vm_compute. repeat split.
Qed.

(** C4 (amended).  After every [RelayClient::sendData] that returns true
    the last call on the socket is [stop()] and [isConnected()] is false,
    whatever the state, the payload and the observations.  After every
    [CameraRelayClient::run] that returns [OK] the socket has not been
    stopped and [isConnected()] is true: that class keeps its connection
    across sends. *)
Theorem C4_close_after_send :
  (forall s e data,
     (RelayClient.sendData s e data).1.1 = true ->
     RelayClient.isConnected (RelayClient.sendData s e data).1.2 = false /\
     last (RelayClient.sendData s e data).2 = Some Stop) /\
  (forall s e,
     (CameraRelayClient.run s e).1.1 = CameraRelayClient.OK ->
     CameraRelayClient.isConnected (CameraRelayClient.run s e).1.2 = true /\
     Stop ∉ (CameraRelayClient.run s e).2).
Proof.
  split.
  - intros s e data. unfold RelayClient.sendData.
    destruct (RelayClient._isConnected s); cbn [negb]; [| discriminate].
    destruct (RelayClient.canSend s _); cbn [negb]; [| discriminate].
    destruct (RelayClient.write_loop _ _ _) as [[| total] log];
      [discriminate |].
    intros _. split; [reflexivity |].
    change [Flush; Stop] with ([Flush] ++ [Stop]).
    rewrite app_assoc. apply last_snoc.
  - intros s e. unfold CameraRelayClient.run.
    destruct (CameraRelayClient._cameraInitialized s); cbn [negb];
      [| discriminate].
    assert (forall s1 log,
              CameraRelayClient._isConnected s1 = true -> Stop ∉ log ->
              (CameraRelayClient.check_and_send s1 e log).1.1
              = CameraRelayClient.OK ->
              CameraRelayClient.isConnected
                (CameraRelayClient.check_and_send s1 e log).1.2 = true /\
              Stop ∉ (CameraRelayClient.check_and_send s1 e log).2) as Hcs.
    { intros s1 log Hconn Hlog. unfold CameraRelayClient.check_and_send.
      rewrite Hconn.
      destruct (CameraRelayClient.connected e); cbn [andb negb];
        [| discriminate].
      destruct (CameraRelayClient.canSend s1 _); cbn [negb];
        [| discriminate].
      destruct (CameraRelayClient.fb e) as [buf |]; [| discriminate].
      destruct (CameraRelayClient.write e =? _); cbn [negb];
        [| discriminate].
      intros _. split; [reflexivity |].
      cbn [snd]. rewrite elem_of_app, list_elem_of_singleton.
      intros [? | ?]; [contradiction | discriminate]. }
    destruct (CameraRelayClient._isConnected s) eqn:Hconn; cbn [negb].
    + apply Hcs; [exact Hconn | apply not_elem_of_nil].
    + unfold CameraRelayClient.attemptConnection.
      destruct (_ <? _).
      * rewrite Hconn. cbn [negb]. discriminate.
      * destruct (CameraRelayClient.connect e); cbn [negb].
        -- apply Hcs; [reflexivity |].
           rewrite list_elem_of_singleton. discriminate.
        -- cbn. rewrite Hconn. discriminate.
Qed.

Lemma C4_close_after_send_witness :
  RelayClient.isConnected
    (RelayClient.sendData relay_at_wrap
       {| RelayClient.millis_gate := 99;
          RelayClient.writes := [(true, 2); (true, 1)];
          RelayClient.millis_sent := 100 |} [1; 2; 3]).1.2 = false /\
  last (RelayClient.sendData relay_at_wrap
          {| RelayClient.millis_gate := 99;
             RelayClient.writes := [(true, 2); (true, 1)];
             RelayClient.millis_sent := 100 |} [1; 2; 3]).2 = Some Stop.
Proof.
  apply (proj1 C4_close_after_send). reflexivity.
Defined.

(** ** Statistics *)

Lemma write_loop_total obs : forall remaining totalSent t log,
  RelayClient.write_loop obs remaining totalSent
  = (RelayClient.LoopLeft t, log) ->
  wrap32 t = wrap32 (totalSent + bytes_written log).
Proof.
  induction obs as [| [conn sent] obs IH]; intros remaining totalSent t log;
    cbn [RelayClient.write_loop].
  - destruct (remaining =? 0); intros [= <- <-]; cbn; f_equal; lia.
  - destruct (remaining =? 0); [intros [= <- <-]; cbn; f_equal; lia |].
    destruct conn; [| intros [= <- <-]; cbn; f_equal; lia].
    destruct (sent =? 0); [discriminate |].
    destruct (RelayClient.write_loop obs _ _) as [r log'] eqn:E.
    intros [= -> <-]. apply IH in E. rewrite E. cbn [bytes_written].
    unfold wrap32. rewrite Zplus_mod_idemp_l. f_equal. lia.
Qed.

(** C10 (counterexample).  The byte counter is 32 bits wide: on a server
    that has sent 4294967000 bytes, a fully successful send of 1000 more
    bytes leaves the counter at 704, below its previous value. *)
Lemma C10_byte_counter_wraps :
  (TcpServer.sendData server_near_4GiB
     (TcpServer.good_send 429496800 (replicate 1000 0))
     (replicate 1000 0)).1 = true /\
  TcpServer._bytesSent
    (TcpServer.sendData server_near_4GiB
       (TcpServer.good_send 429496800 (replicate 1000 0))
       (replicate 1000 0)).2 = 704 /\
  TcpServer._bytesSent
    (TcpServer.sendData server_near_4GiB
       (TcpServer.good_send 429496800 (replicate 1000 0))
       (replicate 1000 0)).2
  < TcpServer._bytesSent server_near_4GiB.
Proof.
  vm_compute. repeat split.
Qed.

(** C10 (amended).  A failed send leaves the statistics alone: whenever
    [TcpServer::sendData] or [RelayClient::sendData] returns false, and
    whenever [CameraTcpServer::run] returns a status other than [OK], the
    frame counter, the byte counter, the last-send timestamp and the
    timestamp ring with its index are unchanged.  In [TcpServer::sendData]
    and [CameraTcpServer::run] the counters change only on a fully
    successful send -- a client is held and the socket accepted every byte
    of the payload (of the captured frame) -- and a fully successful send,
    in all three functions, advances the frame counter by 1 and the byte
    counter by the payload length, both modulo 2^32. *)
Theorem C10_failed_send_atomic :
  (forall s e data,
     let r := TcpServer.sendData s e data in
     (r.1 = false -> tcp_stats r.2 = tcp_stats s) /\
     (tcp_stats r.2 <> tcp_stats s ->
      r.1 = true /\
      TcpServer.hasClient s (TcpServer.connected e) = true /\
      TcpServer.write e = Z.of_nat (length data)) /\
     (r.1 = true ->
      TcpServer.hasClient s (TcpServer.connected e) = true /\
      TcpServer.write e = Z.of_nat (length data) /\
      TcpServer._frameCount r.2 = (TcpServer._frameCount s + 1) mod 2 ^ 32 /\
      TcpServer._bytesSent r.2
      = (TcpServer._bytesSent s + Z.of_nat (length data)) mod 2 ^ 32)) /\
  (forall s e data,
     let r := RelayClient.sendData s e data in
     (r.1.1 = false -> relay_stats r.1.2 = relay_stats s) /\
     (r.1.1 = true -> bytes_written r.2 = Z.of_nat (length data) ->
      RelayClient._frameCount r.1.2
      = (RelayClient._frameCount s + 1) mod 2 ^ 32 /\
      RelayClient._totalBytesSent r.1.2
      = (RelayClient._totalBytesSent s + Z.of_nat (length data))
        mod 2 ^ 32)) /\
  (forall s e,
     let r := CameraTcpServer.run s e in
     (r.1 <> CameraTcpServer.OK -> camera_stats r.2 = camera_stats s) /\
     (camera_stats r.2 <> camera_stats s ->
      r.1 = CameraTcpServer.OK /\
      exists buf, CameraTcpServer.fb e = Some buf /\
                  CameraTcpServer.write e = Z.of_nat (length buf)) /\
     (r.1 = CameraTcpServer.OK ->
      CameraTcpServer._hasClient r.2 = true /\
      exists buf,
        CameraTcpServer.fb e = Some buf /\
        CameraTcpServer.write e = Z.of_nat (length buf) /\
        CameraTcpServer._frameCount r.2
        = (CameraTcpServer._frameCount s + 1) mod 2 ^ 32 /\
        CameraTcpServer._bytesSent r.2
        = (CameraTcpServer._bytesSent s + Z.of_nat (length buf))
          mod 2 ^ 32)).
Proof.
  split; [| split].
  - intros s e data. cbv zeta. unfold TcpServer.sendData.
    destruct (TcpServer.hasClient s _); cbn [negb];
      [| split; [reflexivity |];
         split; [intros Hne; contradiction | discriminate]].
    destruct (Z.eqb_spec (TcpServer.write e) (Z.of_nat (length data)))
      as [Hw | Hw]; cbn [negb fst snd].
    + split; [discriminate |].
      split; [intros _; split; [reflexivity |]; split;
                [reflexivity | exact Hw] |].
      intros _. split; [reflexivity |]. split; [exact Hw |].
      rewrite Hw. split; reflexivity.
    + assert (tcp_stats (TcpServer.disconnectClient s) = tcp_stats s) as Hsame.
      { unfold TcpServer.disconnectClient.
        destruct (TcpServer._client s); reflexivity. }
      split; [intros _; exact Hsame |].
      split; [intros Hne; contradiction | discriminate].
  - intros s e data. cbv zeta. unfold RelayClient.sendData.
    destruct (RelayClient._isConnected s); cbn [negb];
      [| split; [reflexivity | discriminate]].
    destruct (RelayClient.canSend s _); cbn [negb];
      [| split; [reflexivity | discriminate]].
    destruct (RelayClient.write_loop _ _ _) as [[| total] log] eqn:E;
      cbn [fst snd].
    + split; [reflexivity | discriminate].
    + split; [discriminate |]. intros _ Hfull. split; [reflexivity |].
      cbn [RelayClient._totalBytesSent]. rewrite <- Hfull.
      apply write_loop_total in E. unfold wrap32 in *.
      assert (bytes_written (log ++ [Flush; Stop]) = bytes_written log) as ->.
      { clear. induction log as [| [] log IH]; cbn; rewrite ?IH; reflexivity. }
      rewrite <- (Zplus_mod_idemp_r total), E. cbn [Z.add].
      rewrite Zplus_mod_idemp_r. reflexivity.
  - intros s e. cbv zeta.
    assert (forall s1, camera_stats s1 = camera_stats s ->
              let r := CameraTcpServer.capture_and_send s1 e in
              (r.1 <> CameraTcpServer.OK -> camera_stats r.2 = camera_stats s)
              /\ (camera_stats r.2 <> camera_stats s ->
                  r.1 = CameraTcpServer.OK /\
                  exists buf, CameraTcpServer.fb e = Some buf /\
                              CameraTcpServer.write e
                              = Z.of_nat (length buf))
              /\ (r.1 = CameraTcpServer.OK ->
                  CameraTcpServer._hasClient r.2
                  = CameraTcpServer._hasClient s1 /\
                  exists buf,
                    CameraTcpServer.fb e = Some buf /\
                    CameraTcpServer.write e = Z.of_nat (length buf) /\
                    CameraTcpServer._frameCount r.2
                    = (CameraTcpServer._frameCount s + 1) mod 2 ^ 32 /\
                    CameraTcpServer._bytesSent r.2
                    = (CameraTcpServer._bytesSent s + Z.of_nat (length buf))
                      mod 2 ^ 32)) as Hcs.
    { intros s1 Hs1. cbv zeta. unfold CameraTcpServer.capture_and_send.
      pose proof Hs1 as Hs1'. injection Hs1 as Hfc Hbs Hlt Hts Hix.
      destruct (CameraTcpServer.canSend s1 _); cbn [negb];
        [| split; [intros _; exact Hs1' |];
           split; [intros Hne; contradiction | discriminate]].
      destruct (CameraTcpServer.fb e) as [buf |];
        [| split; [intros _; exact Hs1' |];
           split; [intros Hne; contradiction | discriminate]].
      destruct (Z.eqb_spec (CameraTcpServer.write e) (Z.of_nat (length buf)))
        as [Hw | Hw]; cbn [negb fst snd].
      - split; [congruence |].
        split; [intros _; split; [reflexivity |]; exists buf;
                  split; [reflexivity | exact Hw] |].
        intros _. split; [reflexivity |]. exists buf.
        split; [reflexivity |]. split; [exact Hw |].
        cbn [CameraTcpServer.updateFPS CameraTcpServer._frameCount
             CameraTcpServer._bytesSent].
        rewrite Hfc, Hbs, Hw. split; reflexivity.
      - assert (camera_stats (CameraTcpServer.disconnectClient s1)
                = camera_stats s) as Hsame.
        { unfold CameraTcpServer.disconnectClient.
          destruct (CameraTcpServer._hasClient s1); exact Hs1'. }
        split; [intros _; exact Hsame |].
        split; [intros Hne; contradiction | discriminate]. }
    assert (forall count s0,
              camera_stats s0 = camera_stats s ->
              let r := CameraTcpServer.capture_and_send
                         (CameraTcpServer.set_client true count s0) e in
              (r.1 <> CameraTcpServer.OK -> camera_stats r.2 = camera_stats s)
              /\ (camera_stats r.2 <> camera_stats s ->
                  r.1 = CameraTcpServer.OK /\
                  exists buf, CameraTcpServer.fb e = Some buf /\
                              CameraTcpServer.write e
                              = Z.of_nat (length buf))
              /\ (r.1 = CameraTcpServer.OK ->
                  CameraTcpServer._hasClient r.2 = true /\
                  exists buf,
                    CameraTcpServer.fb e = Some buf /\
                    CameraTcpServer.write e = Z.of_nat (length buf) /\
                    CameraTcpServer._frameCount r.2
                    = (CameraTcpServer._frameCount s + 1) mod 2 ^ 32 /\
                    CameraTcpServer._bytesSent r.2
                    = (CameraTcpServer._bytesSent s + Z.of_nat (length buf))
                      mod 2 ^ 32)) as Hnew.
    { intros count s0 Hs0. cbv zeta.
      destruct (Hcs (CameraTcpServer.set_client true count s0) Hs0)
        as (H1 & H2 & H3).
      split; [exact H1 |]. split; [exact H2 |].
      intros Hok. destruct (H3 Hok) as (Hc & Hrest).
      split; [rewrite Hc; reflexivity | exact Hrest]. }
    unfold CameraTcpServer.run.
    destruct (CameraTcpServer._cameraInitialized s); cbn [negb];
      [| split; [reflexivity |];
         split; [intros Hne; contradiction | discriminate]].
    destruct (CameraTcpServer._hasClient s) eqn:Hh,
             (CameraTcpServer.connected e); cbn [negb orb].
    + destruct (Hcs s eq_refl) as (H1 & H2 & H3).
      split; [exact H1 |]. split; [exact H2 |].
      intros Hok. destruct (H3 Hok) as (Hc & Hrest).
      split; [rewrite Hc; exact Hh | exact Hrest].
    + destruct (CameraTcpServer.available e); [apply Hnew; reflexivity |].
      split; [reflexivity |].
      split; [intros Hne; contradiction | discriminate].
    + destruct (CameraTcpServer.available e); [apply Hnew; reflexivity |].
      split; [reflexivity |].
      split; [intros Hne; contradiction | discriminate].
    + destruct (CameraTcpServer.available e); [apply Hnew; reflexivity |].
      split; [reflexivity |].
      split; [intros Hne; contradiction | discriminate].
Qed.

(** ** Reconnection back-off *)

Lemma wrap32_diff t last :
  wrap32 (wrap32 t - wrap32 last) = (t - last) mod 2 ^ 32.
Proof.
  unfold wrap32. rewrite Zminus_mod_idemp_l, Zminus_mod_idemp_r.
  reflexivity.
Qed.

(** One [RelayClient::run] call against a peer that refuses: it attempts
    exactly when the wrapped difference has reached the delay, and records
    the reading of the attempt. *)
Lemma relay_run_step (s : RelayClient.t) (c : Z * Z) (last : Z) :
  RelayClient._lastConnectionAttempt s = wrap32 last ->
  let r := RelayClient.run s (relay_failing_run c) in
  RelayClient._retryDelay r.1 = RelayClient._retryDelay s /\
  if RelayClient._retryDelay s <=? (c.1 - last) mod 2 ^ 32
  then attempts r.2 = 1%nat /\
       RelayClient._lastConnectionAttempt r.1 = wrap32 c.2
  else attempts r.2 = 0%nat /\
       RelayClient._lastConnectionAttempt r.1 = wrap32 last.
Proof.
  intros Hlast. cbv zeta. unfold RelayClient.run.
  cbn [relay_failing_run RelayClient.connected RelayClient.millis_run
       RelayClient.millis_attempt RelayClient.connect].
  destruct (RelayClient._isConnected s);
    cbn [RelayClient.set_isConnected RelayClient._retryDelay
         RelayClient._lastConnectionAttempt];
    rewrite Hlast, wrap32_diff;
    destruct (RelayClient._retryDelay s <=? (c.1 - last) mod 2 ^ 32);
    cbn; auto.
Qed.

Lemma relay_backoff calls : forall (s : RelayClient.t) (last from : Z),
  0 <= RelayClient._retryDelay s ->
  RelayClient._lastConnectionAttempt s = wrap32 last ->
  last <= from -> chain from calls ->
  backoff_respected (RelayClient._retryDelay s) last calls
    (relay_runs s calls).
Proof.
  induction calls as [| [t t'] calls IH]; intros s last from Hrd Hlast Hle Hch;
    cbn [relay_runs backoff_respected]; [exact I |].
  destruct Hch as (Hft & Htt & Hch).
  pose proof (relay_run_step s (t, t') last Hlast) as Hstep.
  cbv zeta in Hstep. cbn [fst snd] in Hstep.
  destruct Hstep as (Hrd' & Hstep).
  pose proof (Z.mod_le (t - last) (2 ^ 32) ltac:(lia) ltac:(lia)) as Hmod.
  destruct (Z.leb_spec (RelayClient._retryDelay s) ((t - last) mod 2 ^ 32))
    as [Hyes | Hno]; destruct Hstep as (Hn & Hnew); rewrite Hn.
  - split; [right; reflexivity |]. split; [lia |]. split; [reflexivity |].
    rewrite decide_True by reflexivity. rewrite <- Hrd'.
    apply (IH _ t' t'); [lia | exact Hnew | lia | exact Hch].
  - split; [left; reflexivity |]. split; [discriminate |].
    split; [intros Hwin; rewrite Z.mod_small in Hno by lia; lia |].
    rewrite decide_False by discriminate. rewrite <- Hrd'.
    apply (IH _ last t'); [lia | exact Hnew | lia | exact Hch].
Qed.

Lemma camera_run_step (s : CameraRelayClient.t) (t last : Z) :
  CameraRelayClient._cameraInitialized s = true ->
  CameraRelayClient._isConnected s = false ->
  CameraRelayClient._lastConnectionAttempt s = wrap32 last ->
  let r := CameraRelayClient.run s (camera_failing_run t) in
  r.1.1 = CameraRelayClient.RECONNECTING /\
  CameraRelayClient._cameraInitialized r.1.2 = true /\
  CameraRelayClient._isConnected r.1.2 = false /\
  CameraRelayClient._retryDelay r.1.2 = CameraRelayClient._retryDelay s /\
  if CameraRelayClient._retryDelay s <=? (t - last) mod 2 ^ 32
  then attempts r.2 = 1%nat /\
       CameraRelayClient._lastConnectionAttempt r.1.2 = wrap32 t
  else attempts r.2 = 0%nat /\
       CameraRelayClient._lastConnectionAttempt r.1.2 = wrap32 last.
Proof.
  intros Hcam Hconn Hlast. cbv zeta. unfold CameraRelayClient.run.
  rewrite Hcam, Hconn. cbn [negb].
  unfold CameraRelayClient.attemptConnection.
  cbn [camera_failing_run CameraRelayClient.millis_attempt
       CameraRelayClient.connect].
  rewrite Hlast, wrap32_diff, Hconn.
  rewrite (Z.leb_antisym ((t - last) mod 2 ^ 32)).
  destruct ((t - last) mod 2 ^ 32 <? CameraRelayClient._retryDelay s);
    cbn [negb]; [rewrite Hconn |]; cbn; auto 10.
Qed.

Lemma camera_backoff times : forall (s : CameraRelayClient.t) (last from : Z),
  CameraRelayClient._cameraInitialized s = true ->
  CameraRelayClient._isConnected s = false ->
  0 <= CameraRelayClient._retryDelay s ->
  CameraRelayClient._lastConnectionAttempt s = wrap32 last ->
  last <= from -> chain from (map twice times) ->
  backoff_respected (CameraRelayClient._retryDelay s) last
    (map twice times) (camera_runs s times).
Proof.
  induction times as [| t times IH];
    intros s last from Hcam Hconn Hrd Hlast Hle Hch;
    cbn [map twice camera_runs backoff_respected]; [exact I |].
  cbn [map twice chain] in Hch. destruct Hch as (Hft & _ & Hch).
  pose proof (camera_run_step s t last Hcam Hconn Hlast) as Hstep.
  cbv zeta in Hstep.
  destruct Hstep as (_ & Hcam' & Hconn' & Hrd' & Hstep).
  pose proof (Z.mod_le (t - last) (2 ^ 32) ltac:(lia) ltac:(lia)) as Hmod.
  destruct (Z.leb_spec (CameraRelayClient._retryDelay s)
              ((t - last) mod 2 ^ 32))
    as [Hyes | Hno]; destruct Hstep as (Hn & Hnew); rewrite Hn.
  - split; [right; reflexivity |]. split; [lia |]. split; [reflexivity |].
    rewrite decide_True by reflexivity. rewrite <- Hrd'.
    apply (IH _ t t); [assumption | assumption | lia | exact Hnew | lia
                      | exact Hch].
  - split; [left; reflexivity |]. split; [discriminate |].
    split; [intros Hwin; rewrite Z.mod_small in Hno by lia; lia |].
    rewrite decide_False by discriminate. rewrite <- Hrd'.
    apply (IH _ last t); [assumption | assumption | lia | exact Hnew | lia
                         | exact Hch].
Qed.

(** C8.  Against a peer that refuses every connection, over any sequence
    of [run()] calls made at non-decreasing times, the back-off is
    respected by both client classes: a call makes no connection attempt
    before [retryDelay] ms have elapsed since the last attempt (since boot,
    for the first), and makes exactly one once they have.  The delay is
    5000 ms on a new object and is what [setRetryDelay] stores. *)
Theorem C8_reconnect_backoff :
  (forall (s : RelayClient.t) (boot : Z) (calls : list (Z * Z)),
     0 <= RelayClient._retryDelay s ->
     RelayClient._lastConnectionAttempt s = boot mod 2 ^ 32 ->
     chain boot calls ->
     backoff_respected (RelayClient._retryDelay s) boot calls
       (relay_runs s calls)) /\
  (forall (s : CameraRelayClient.t) (boot : Z) (times : list Z),
     CameraRelayClient._cameraInitialized s = true ->
     CameraRelayClient._isConnected s = false ->
     0 <= CameraRelayClient._retryDelay s ->
     CameraRelayClient._lastConnectionAttempt s = boot mod 2 ^ 32 ->
     chain boot (map twice times) ->
     backoff_respected (CameraRelayClient._retryDelay s) boot
       (map twice times) (camera_runs s times)) /\
  (forall fps s, RelayClient.new fps = Some s ->
     RelayClient._retryDelay s = 5000 /\
     RelayClient._lastConnectionAttempt s = 0) /\
  (forall fps s, CameraRelayClient.new fps = Some s ->
     CameraRelayClient._retryDelay s = 5000 /\
     CameraRelayClient._lastConnectionAttempt s = 0) /\
  (forall s d, RelayClient._retryDelay (RelayClient.setRetryDelay s d) = d)
  /\
  (forall s d,
     CameraRelayClient._retryDelay (CameraRelayClient.setRetryDelay s d) = d).
Proof.
  split; [| split; [| split; [| split; [| split]]]].
  - intros s boot calls Hrd Hlast Hch.
    apply (relay_backoff calls s boot boot); [assumption.. | lia | assumption].
  - intros s boot times Hcam Hconn Hrd Hlast Hch.
    apply (camera_backoff times s boot boot);
      [assumption.. | lia | assumption].
  - intros fps s. unfold RelayClient.new, RelayClient.updateFPSInterval.
    cbn [RelayClient._targetFPS].
    destruct (0 <? fps)%float; [destruct (to_ulong _) |];
      intros [= <-]; split; reflexivity.
  - intros fps s. unfold CameraRelayClient.new.
    destruct (to_ulong _); intros [= <-]; split; reflexivity.
  - reflexivity.
  - reflexivity.
Qed.

Lemma C8_reconnect_backoff_witness :
  exists s, RelayClient.new 10 = Some s /\
    relay_runs s six_calls = [0; 0; 1; 0; 0; 1]%nat /\
    backoff_respected 5000 0 six_calls (relay_runs s six_calls).
Proof.
  eexists. split; [reflexivity |]. split; [reflexivity |].
  refine (proj1 C8_reconnect_backoff _ 0 six_calls _ _ _).
  - vm_compute. discriminate.
  - reflexivity.
  - cbn. lia.
Defined.

Lemma C10_failed_send_atomic_witness :
  (TcpServer.sendData server_near_4GiB
     {| TcpServer.connected := true; TcpServer.write := 2;
        TcpServer.millis_sent := 429496800;
        TcpServer.millis_fps := 429496800 |} [1; 2; 3]).1 = false /\
  tcp_stats
    (TcpServer.sendData server_near_4GiB
       {| TcpServer.connected := true; TcpServer.write := 2;
          TcpServer.millis_sent := 429496800;
          TcpServer.millis_fps := 429496800 |} [1; 2; 3]).2
  = tcp_stats server_near_4GiB.
Proof.
  split; [reflexivity |].
  apply (proj1 (proj1 C10_failed_send_atomic server_near_4GiB
                  {| TcpServer.connected := true; TcpServer.write := 2;
                     TcpServer.millis_sent := 429496800;
                     TcpServer.millis_fps := 429496800 |} [1; 2; 3])).
  reflexivity.
Defined.

(** ** The rolling rate measurement before the ring has filled *)

Lemma sendData_ring_below j s e data :
  (j < 9)%nat -> ring_below j s ->
  ring_below (S j) (TcpServer.sendData s e data).2.
Proof.
  intros Hj [Hidx H9]. unfold TcpServer.sendData.
  destruct (TcpServer.hasClient s _); cbn [negb snd];
    [| split; [lia | exact H9]].
  destruct (TcpServer.write e =? _); cbn [negb snd].
  - unfold ring_below, TcpServer.updateFPS.
    cbn [TcpServer._fpsIndex TcpServer._fpsTimestamps].
    split.
    + rewrite Nat.mod_small by lia. lia.
    + unfold slot in *. rewrite list_lookup_insert_ne by lia. exact H9.
  - unfold TcpServer.disconnectClient.
    destruct (TcpServer._client s); split; cbn; solve [lia | exact H9].
Qed.

Lemma tcp_calls_ring_below l : forall j s,
  (j + length l <= 9)%nat -> ring_below j s ->
  ring_below (j + length l) (tcp_calls s l).
Proof.
  induction l as [| c l IH]; intros j s Hlen Hinv; cbn [length] in *.
  - rewrite Nat.add_0_r. exact Hinv.
  - replace (j + S (length l))%nat with (S j + length l)%nat by lia.
    apply IH; [lia |]. apply sendData_ring_below; [lia | exact Hinv].
Qed.

(** The part of C1 that holds on the code: while fewer than 10 sends have
    been recorded -- whatever the calls observed, succeeded or not --
    [getActualFPS] returns 0. *)
Lemma getActualFPS_zero_before_ten_sends port fps s0 conn available l :
  TcpServer.new port fps = Some s0 ->
  (length l < 10)%nat ->
  TcpServer.getActualFPS (tcp_calls (TcpServer.run s0 conn available) l)
  = 0%float.
Proof.
  intros Hnew Hlen.
  assert (ring_below 0 (TcpServer.run s0 conn available)) as Hinv.
  { unfold TcpServer.new in Hnew.
    destruct (to_ulong _); [| discriminate]. injection Hnew as <-.
    unfold ring_below, TcpServer.run.
    cbn [TcpServer._client negb orb TcpServer._fpsIndex
         TcpServer._fpsTimestamps].
    split; [lia | reflexivity]. }
  destruct (tcp_calls_ring_below l 0 _ ltac:(cbn; lia) Hinv) as [_ H9].
  unfold TcpServer.getActualFPS. rewrite H9. reflexivity.
Qed.

(** [RelayClient::sendData] leaves its write loop as soon as [connected()]
    turns false, and nothing after the loop looks at [remaining]: here two
    of five bytes are written before the connection drops, and the call
    still counts the frame and returns true. *)
Lemma RelayClient_counts_unsent_frame :
  let r := RelayClient.sendData relay_at_wrap
             {| RelayClient.millis_gate := 99;
                RelayClient.writes := [(true, 2); (false, 0)];
                RelayClient.millis_sent := 100 |} [1; 2; 3; 4; 5] in
  r.1.1 = true /\
  r.2 = [Write 5 2; Flush; Stop] /\
  RelayClient._frameCount r.1.2 = RelayClient._frameCount relay_at_wrap + 1 /\
  RelayClient._totalBytesSent r.1.2
  = RelayClient._totalBytesSent relay_at_wrap + 2.
Proof.
  vm_compute. repeat split.
Qed.

(** * Further properties of the code *)

(** ** The timestamp ring *)

Lemma mod10_distinct (j n : nat) :
  (j < n)%nat -> (n < j + 10)%nat -> (j mod 10 <> n mod 10)%nat.
Proof.
  intros Hlt Hnear Heq.
  pose proof (Nat.div_mod_eq j 10) as Hj.
  pose proof (Nat.div_mod_eq n 10) as Hn.
  pose proof (Nat.mod_upper_bound j 10 ltac:(lia)).
  lia.
Qed.

Lemma record_readings_ring (s0 : TcpServer.t) (readings : list Z) :
  length (TcpServer._fpsTimestamps s0) = 10%nat ->
  TcpServer._fpsIndex s0 = 0%nat ->
  let s := record_readings s0 readings in
  let n := length readings in
  TcpServer._fpsIndex s = (n mod 10)%nat /\
  length (TcpServer._fpsTimestamps s) = 10%nat /\
  forall j, (j < n)%nat -> (n <= j + 10)%nat ->
            readings !! j = Some (slot (TcpServer._fpsTimestamps s)
                                       (j mod 10)).
Proof.
  intros Hlen Hidx. cbv zeta. unfold record_readings.
  induction readings as [| now readings IH] using rev_ind.
  - cbn. split; [exact Hidx |]. split; [exact Hlen |]. intros j Hj. lia.
  - destruct IH as (IHidx & IHlen & IHslot).
    rewrite foldl_app, length_app. cbn [foldl length].
    set (s := foldl TcpServer.updateFPS s0 readings) in *.
    unfold TcpServer.updateFPS.
    cbn [TcpServer._fpsIndex TcpServer._fpsTimestamps].
    rewrite IHidx.
    pose proof (Nat.mod_upper_bound (length readings) 10 ltac:(lia)) as Hm.
    split; [| split].
    + rewrite Nat.Div0.add_mod_idemp_l. reflexivity.
    + rewrite length_insert. exact IHlen.
    + intros j Hj Hnear. unfold slot.
      destruct (decide (j = length readings)) as [-> | Hne].
      * rewrite lookup_app_r by lia. rewrite Nat.sub_diag.
        rewrite list_lookup_insert_eq by lia. reflexivity.
      * rewrite lookup_app_l by lia.
        rewrite list_lookup_insert_ne
          by (intros Heq; symmetry in Heq; revert Heq;
              apply mod10_distinct; lia).
        apply IHslot; lia.
Qed.

(** X1.  The ring always holds the last ten recorded readings: after [n]
    calls of [updateFPS] on a new object, [_fpsIndex] is [n mod 10] and
    reading number [j] (of the last ten) sits in slot [j mod 10].  In
    particular, once ten readings are recorded, the slot at [_fpsIndex]
    holds the oldest of the last ten and the slot at
    [(_fpsIndex + 9) mod 10] the newest. *)
Theorem X1_ring_holds_last_ten (s0 : TcpServer.t) (readings : list Z) :
  length (TcpServer._fpsTimestamps s0) = 10%nat ->
  TcpServer._fpsIndex s0 = 0%nat ->
  let s := record_readings s0 readings in
  let n := length readings in
  (TcpServer._fpsIndex s < 10)%nat /\
  TcpServer._fpsIndex s = (n mod 10)%nat /\
  (forall j, (j < n)%nat -> (n <= j + 10)%nat ->
     readings !! j
     = Some (slot (TcpServer._fpsTimestamps s) (j mod 10))) /\
  ((10 <= n)%nat ->
   readings !! (n - 10)%nat
   = Some (slot (TcpServer._fpsTimestamps s) (TcpServer._fpsIndex s)) /\
   readings !! (n - 1)%nat
   = Some (slot (TcpServer._fpsTimestamps s)
                ((TcpServer._fpsIndex s + 9) mod 10))).
Proof.
  intros Hlen Hidx. cbv zeta.
  destruct (record_readings_ring s0 readings Hlen Hidx)
    as (Hi & _ & Hslot).
  cbv zeta in Hi, Hslot. rewrite Hi.
  split; [apply Nat.mod_upper_bound; lia |].
  split; [reflexivity |]. split; [exact Hslot |].
  intros Hn. split.
  - rewrite (Hslot (length readings - 10)%nat) by lia. do 2 f_equal.
    replace (length readings) with (length readings - 10 + 1 * 10)%nat
      at 2 by lia.
    rewrite Nat.Div0.mod_add. reflexivity.
  - rewrite (Hslot (length readings - 1)%nat) by lia. do 2 f_equal.
    rewrite Nat.Div0.add_mod_idemp_l.
    replace (length readings + 9)%nat
      with (length readings - 1 + 1 * 10)%nat by lia.
    rewrite Nat.Div0.mod_add. reflexivity.
Qed.

Lemma X1_ring_holds_last_ten_witness :
  exists s0, TcpServer.new 1234 10 = Some s0 /\
    let s := record_readings s0 (every_100ms ++ [1100; 1200]) in
    TcpServer._fpsIndex s = 2%nat /\
    Some 300 = Some (slot (TcpServer._fpsTimestamps s) 2) /\
    Some 1200 = Some (slot (TcpServer._fpsTimestamps s) 1).
Proof.
  eexists. split; [reflexivity |]. cbv zeta.
  match goal with |- context [record_readings ?s _] =>
    pose proof (X1_ring_holds_last_ten s (every_100ms ++ [1100; 1200])
                  eq_refl eq_refl) as H end.
  cbv zeta in H. destruct H as (_ & Hi & _ & Hends).
  split; [exact Hi |]. exact (Hends ltac:(cbn; lia)).
Defined.

(** X2.  What [getActualFPS] returns once the ring is full.  After ten or
    more readings, none of them 0, have been recorded, the value is
    computed from the two oldest readings the ring retains: with [oldest]
    recorded ten sends ago and [next] nine sends ago, the divisor is the
    unsigned difference [oldest - next]; the result is 0 when that is 0 and
    [9000 / (oldest - next) mod 2^32] rounded to [float] otherwise. *)
Theorem X2_getActualFPS_full_ring (s0 : TcpServer.t) (readings : list Z) :
  length (TcpServer._fpsTimestamps s0) = 10%nat ->
  TcpServer._fpsIndex s0 = 0%nat ->
  (10 <= length readings)%nat ->
  Forall (fun t => t <> 0) readings ->
  exists oldest next,
    readings !! (length readings - 10)%nat = Some oldest /\
    readings !! (length readings - 9)%nat = Some next /\
    TcpServer.getActualFPS (record_readings s0 readings)
    = if wrap32 (oldest - next) =? 0 then 0%float
      else to_float (9000 / of_ulong (wrap32 (oldest - next)))%float.
Proof.
  intros Hlen Hidx Hn Hnz.
  destruct (record_readings_ring s0 readings Hlen Hidx) as (Hi & _ & Hslot).
  cbv zeta in Hi, Hslot.
  set (s := record_readings s0 readings) in *.
  set (n := length readings) in *.
  pose proof (Hslot (n - 10)%nat ltac:(lia) ltac:(lia)) as Hold.
  pose proof (Hslot (n - 9)%nat ltac:(lia) ltac:(lia)) as Hnext.
  pose proof (Hslot (10 * ((n - 10) / 10) + 9)%nat) as Hnine.
  pose proof (Nat.div_mod_eq (n - 10) 10) as Hdm.
  pose proof (Nat.mod_upper_bound (n - 10) 10 ltac:(lia)) as Hmb.
  specialize (Hnine ltac:(lia) ltac:(lia)).
  replace ((10 * ((n - 10) / 10) + 9) mod 10)%nat with 9%nat in Hnine
    by (rewrite Nat.add_comm, Nat.mul_comm, Nat.Div0.mod_add; reflexivity).
  replace ((n - 10) mod 10)%nat with (TcpServer._fpsIndex s) in Hold
    by (rewrite Hi; replace n with (n - 10 + 1 * 10)%nat at 1 by lia;
        rewrite Nat.Div0.mod_add; reflexivity).
  replace ((n - 9) mod 10)%nat with ((TcpServer._fpsIndex s + 1) mod 10)%nat
    in Hnext
    by (rewrite Hi, Nat.Div0.add_mod_idemp_l;
        replace (n + 1)%nat with (n - 9 + 1 * 10)%nat by lia;
        rewrite Nat.Div0.mod_add; reflexivity).
  eexists _, _. split; [exact Hold |]. split; [exact Hnext |].
  unfold TcpServer.getActualFPS, TcpServer.elapsed.
  assert (slot (TcpServer._fpsTimestamps s) 9 <> 0) as H9.
  { rewrite Forall_lookup in Hnz. exact (Hnz _ _ Hnine). }
  destruct (Z.eqb_spec (slot (TcpServer._fpsTimestamps s) 9) 0);
    [contradiction | reflexivity].
Qed.

Lemma X2_getActualFPS_full_ring_witness :
  exists s0, TcpServer.new 1234 10 = Some s0 /\
    TcpServer.getActualFPS (record_readings s0 every_100ms)
    = to_float (9000 / of_ulong (wrap32 (100 - 200)))%float.
Proof.
  eexists. split; [reflexivity |].
  match goal with |- context [record_readings ?s _] =>
    destruct (X2_getActualFPS_full_ring s every_100ms eq_refl eq_refl
                ltac:(cbn; lia)
                ltac:(repeat constructor; discriminate))
      as (oldest & next & Ho & Hn & ->) end.
  injection Ho as <-. injection Hn as <-. reflexivity.
Defined.

(** ** The rate gate and the sends *)

(** X3.  The classes that consult the gate inside the send path never send
    while it denies: [RelayClient::sendData] returns true, and
    [CameraTcpServer::run] and [CameraRelayClient::run] return [OK], only
    if [canSend] permits at the clock reading taken in that call. *)
Theorem X3_send_only_when_gate_permits :
  (forall s e data,
     (RelayClient.sendData s e data).1.1 = true ->
     RelayClient.canSend s (RelayClient.millis_gate e) = true) /\
  (forall s e,
     (CameraTcpServer.run s e).1 = CameraTcpServer.OK ->
     CameraTcpServer.canSend s (CameraTcpServer.millis_gate e) = true) /\
  (forall s e,
     (CameraRelayClient.run s e).1.1 = CameraRelayClient.OK ->
     CameraRelayClient.canSend s (CameraRelayClient.millis_gate e) = true).
Proof.
  split; [| split].
  - intros s e data. unfold RelayClient.sendData.
    destruct (RelayClient._isConnected s); cbn [negb]; [| discriminate].
    destruct (RelayClient.canSend s _); cbn [negb];
      [reflexivity | discriminate].
  - intros s e.
    assert (forall s1,
              CameraTcpServer.canSend s1 (CameraTcpServer.millis_gate e)
              = CameraTcpServer.canSend s (CameraTcpServer.millis_gate e) ->
              (CameraTcpServer.capture_and_send s1 e).1 = CameraTcpServer.OK
              -> CameraTcpServer.canSend s (CameraTcpServer.millis_gate e)
                 = true) as Hcs.
    { intros s1 <-. unfold CameraTcpServer.capture_and_send.
      destruct (CameraTcpServer.canSend s1 _); cbn [negb];
        [reflexivity | discriminate]. }
    unfold CameraTcpServer.run.
    destruct (CameraTcpServer._cameraInitialized s); cbn [negb];
      [| discriminate].
    destruct (negb (CameraTcpServer._hasClient s)
              || negb (CameraTcpServer.connected e)).
    + destruct (CameraTcpServer.available e); [| discriminate].
      apply Hcs. destruct (CameraTcpServer._hasClient s); reflexivity.
    + apply Hcs. reflexivity.
  - intros s e.
    assert (forall s1 log,
              CameraRelayClient.canSend s1 (CameraRelayClient.millis_gate e)
              = CameraRelayClient.canSend s
                  (CameraRelayClient.millis_gate e) ->
              (CameraRelayClient.check_and_send s1 e log).1.1
              = CameraRelayClient.OK ->
              CameraRelayClient.canSend s (CameraRelayClient.millis_gate e)
              = true) as Hcs.
    { intros s1 log <-. unfold CameraRelayClient.check_and_send.
      destruct (CameraRelayClient._isConnected s1
                && negb (CameraRelayClient.connected e)); [discriminate |].
      destruct (CameraRelayClient.canSend s1 _); cbn [negb];
        [reflexivity | discriminate]. }
    unfold CameraRelayClient.run.
    destruct (CameraRelayClient._cameraInitialized s); cbn [negb];
      [| discriminate].
    destruct (CameraRelayClient._isConnected s) eqn:Hconn; cbn [negb];
      [apply Hcs; reflexivity |].
    unfold CameraRelayClient.attemptConnection.
    destruct (_ <? _).
    + rewrite Hconn. discriminate.
    + cbn [CameraRelayClient.set_connection
           CameraRelayClient._isConnected].
      destruct (CameraRelayClient.connect e); cbn [negb].
      * apply Hcs. reflexivity.
      * rewrite Hconn. discriminate.
Qed.

(** X4.  The gate after a send.  After a successful send recorded at
    clock reading [t], and for every later reading [now] of the same clock
    period, the gate permits exactly when the interval has elapsed:
    [canSend] is true iff [interval <= now - t] (for [RelayClient], also
    when the interval is 0). *)
Theorem X4_gate_after_send (now : Z) :
  (forall s e data,
     (TcpServer.sendData s e data).1 = true ->
     0 <= TcpServer.millis_sent e <= now -> now < 2 ^ 32 ->
     ((TcpServer.canSend (TcpServer.sendData s e data).2 now).1 = true <->
      TcpServer._frameInterval s <= now - TcpServer.millis_sent e)) /\
  (forall s e,
     (CameraTcpServer.run s e).1 = CameraTcpServer.OK ->
     0 <= CameraTcpServer.millis_sent e <= now -> now < 2 ^ 32 ->
     (CameraTcpServer.canSend (CameraTcpServer.run s e).2 now = true <->
      CameraTcpServer._frameInterval s
      <= now - CameraTcpServer.millis_sent e)) /\
  (forall s e data,
     (RelayClient.sendData s e data).1.1 = true ->
     0 <= RelayClient.millis_sent e <= now -> now < 2 ^ 32 ->
     (RelayClient.canSend (RelayClient.sendData s e data).1.2 now = true <->
      RelayClient._minSendInterval s = 0 \/
      RelayClient._minSendInterval s <= now - RelayClient.millis_sent e)).
Proof.
  split; [| split].
  - intros s e data. unfold TcpServer.sendData.
    destruct (TcpServer.hasClient s _); cbn [negb]; [| discriminate].
    destruct (TcpServer.write e =? _); cbn [negb]; [| discriminate].
    intros _ Ht Hnow. unfold TcpServer.canSend, TcpServer.updateFPS.
    cbn [snd TcpServer._lastFrameTime TcpServer._frameInterval].
    destruct (Z.ltb_spec now (TcpServer.millis_sent e)); [lia |].
    cbn [fst]. unfold wrap32. rewrite Z.mod_small by lia. apply Z.leb_le.
  - intros s e Hok Ht Hnow.
    assert (forall s1,
              CameraTcpServer._frameInterval s1
              = CameraTcpServer._frameInterval s ->
              (CameraTcpServer.capture_and_send s1 e).1 = CameraTcpServer.OK
              -> (CameraTcpServer.canSend
                    (CameraTcpServer.capture_and_send s1 e).2 now = true <->
                  CameraTcpServer._frameInterval s
                  <= now - CameraTcpServer.millis_sent e)) as Hcs.
    { intros s1 Hiv. unfold CameraTcpServer.capture_and_send.
      destruct (CameraTcpServer.canSend s1 _); cbn [negb]; [| discriminate].
      destruct (CameraTcpServer.fb e); [| discriminate].
      destruct (CameraTcpServer.write e =? _); cbn [negb]; [| discriminate].
      intros _. unfold CameraTcpServer.canSend, CameraTcpServer.updateFPS.
      cbn [snd CameraTcpServer._lastFrameTime
           CameraTcpServer._frameInterval].
      destruct (Z.ltb_spec now (CameraTcpServer.millis_sent e)); [lia |].
      unfold wrap32. rewrite Z.mod_small by lia. rewrite Hiv.
      apply Z.leb_le. }
    revert Hok. unfold CameraTcpServer.run.
    destruct (CameraTcpServer._cameraInitialized s); cbn [negb];
      [| discriminate].
    destruct (negb (CameraTcpServer._hasClient s)
              || negb (CameraTcpServer.connected e)).
    + destruct (CameraTcpServer.available e); [| discriminate].
      apply Hcs. destruct (CameraTcpServer._hasClient s); reflexivity.
    + apply Hcs. reflexivity.
  - intros s e data. unfold RelayClient.sendData.
    destruct (RelayClient._isConnected s); cbn [negb]; [| discriminate].
    destruct (RelayClient.canSend s _); cbn [negb]; [| discriminate].
    destruct (RelayClient.write_loop _ _ _) as [[| total] log];
      [discriminate |].
    intros _ Ht Hnow. unfold RelayClient.canSend.
    cbn [fst snd RelayClient._lastSendTime RelayClient._minSendInterval].
    unfold wrap32. rewrite Z.mod_small by lia.
    destruct (Z.eqb_spec (RelayClient._minSendInterval s) 0) as [E | E].
    + split; [left; exact E | reflexivity].
    + rewrite Z.leb_le.
      split; [right; assumption | intros [? | ?]; [lia | assumption]].
Qed.

Lemma X4_gate_after_send_witness :
  (TcpServer.canSend
     (TcpServer.sendData server_near_4GiB
        (TcpServer.good_send 429496800 [1; 2; 3]) [1; 2; 3]).2
     429496899).1 = false /\
  (TcpServer.canSend
     (TcpServer.sendData server_near_4GiB
        (TcpServer.good_send 429496800 [1; 2; 3]) [1; 2; 3]).2
     429496900).1 = true.
Proof.
  pose proof (proj1 (X4_gate_after_send 429496899) server_near_4GiB
                (TcpServer.good_send 429496800 [1; 2; 3]) [1; 2; 3]
                eq_refl ltac:(cbn; lia) ltac:(lia)) as Hearly.
  pose proof (proj1 (X4_gate_after_send 429496900) server_near_4GiB
                (TcpServer.good_send 429496800 [1; 2; 3]) [1; 2; 3]
                eq_refl ltac:(cbn; lia) ltac:(lia)) as Hlate.
  split.
  - destruct (TcpServer.canSend _ 429496899).1; [| reflexivity].
    apply proj1 in Hearly. specialize (Hearly eq_refl). cbn in Hearly. lia.
  - apply Hlate. cbn. lia.
Defined.



Lemma whole_rates_checked : forallb whole_rate_ok (seq 1 1000) = true.
Proof. vm_compute. reflexivity. Qed.

Lemma whole_rate_interval (n : Z) :
  1 <= n <= 1000 ->
  (0 <? of_ulong n)%float = true /\
  to_ulong (1000 / of_ulong n)%float = Some (1000 / n).
Proof.
  intros Hn.
  pose proof (proj1 (forallb_forall whole_rate_ok (seq 1 1000))
                whole_rates_checked (Z.to_nat n)) as Hok.
  specialize (Hok ltac:(apply in_seq; lia)).
  unfold whole_rate_ok in Hok. rewrite Z2Nat.id in Hok by lia.
  apply andb_prop in Hok as [Hpos Hiv]. split; [exact Hpos |].
  destruct (to_ulong _) as [i |]; [| discriminate].
  apply Z.eqb_eq in Hiv. congruence.
Qed.

(** X6.  The frame interval of a whole-number rate.  For every rate of
    [n] frames per second with [n] from 1 to 1000, constructors and
    [setTargetFPS] of all four session classes store the interval
    [1000 / n] ms rounded down (333 ms for 3 FPS, 142 ms for 7 FPS). *)
Theorem X6_interval_of_whole_rate (n : Z) :
  1 <= n <= 1000 ->
  (forall s, exists s', TcpServer.setTargetFPS s (of_ulong n) = Some s' /\
                        TcpServer._frameInterval s' = 1000 / n) /\
  (forall s, exists s',
     CameraTcpServer.setTargetFPS s (of_ulong n) = Some s' /\
     CameraTcpServer._frameInterval s' = 1000 / n) /\
  (forall s, exists s',
     CameraRelayClient.setTargetFPS s (of_ulong n) = Some s' /\
     CameraRelayClient._frameInterval s' = 1000 / n) /\
  (forall s, exists s',
     RelayClient.setTargetFPS s (of_ulong n) = Some s' /\
     RelayClient._minSendInterval s' = 1000 / n) /\
  (forall port, exists s', TcpServer.new port (of_ulong n) = Some s' /\
                           TcpServer._frameInterval s' = 1000 / n) /\
  (exists s', RelayClient.new (of_ulong n) = Some s' /\
              RelayClient._minSendInterval s' = 1000 / n) /\
  (forall port, exists s',
     CameraTcpServer.new port (of_ulong n) = Some s' /\
     CameraTcpServer._frameInterval s' = 1000 / n) /\
  (exists s', CameraRelayClient.new (of_ulong n) = Some s' /\
              CameraRelayClient._frameInterval s' = 1000 / n).
Proof.
  intros Hn. destruct (whole_rate_interval n Hn) as [Hpos Hiv].
  repeat split; intros;
    unfold TcpServer.setTargetFPS, CameraTcpServer.setTargetFPS,
      CameraRelayClient.setTargetFPS, RelayClient.setTargetFPS,
      TcpServer.new, RelayClient.new, RelayClient.updateFPSInterval,
      CameraTcpServer.new, CameraRelayClient.new;
    cbn [RelayClient._targetFPS]; rewrite ?Hpos, Hiv;
    eexists; split; reflexivity.
Qed.

Lemma X6_interval_of_whole_rate_witness :
  (exists s', RelayClient.new (of_ulong 7) = Some s' /\
              RelayClient._minSendInterval s' = 142) /\
  (exists s', CameraTcpServer.new 81 (of_ulong 7) = Some s' /\
              CameraTcpServer._frameInterval s' = 142) /\
  (exists s', CameraRelayClient.new (of_ulong 7) = Some s' /\
              CameraRelayClient._frameInterval s' = 142).
Proof.
  pose proof (X6_interval_of_whole_rate 7 ltac:(lia))
    as (_ & _ & _ & _ & _ & Hrelay & Hcam & Hcr).
  split; [exact Hrelay |]. split; [exact (Hcam 81) | exact Hcr].
Defined.

(** ** The datagram wire format *)


Section Datagrams.
Import UDPNetworkClient.

Lemma htonl_testbit x i : 0 <= i -> Z.testbit (htonl x) i = swap_bit x i.
Proof.
  intros Hi. unfold htonl, swap_bit.
  change 4278190080 with (Z.shiftl (Z.ones 8) 24).
  change 16711680 with (Z.shiftl (Z.ones 8) 16).
  change 65280 with (Z.shiftl (Z.ones 8) 8).
  change 255 with (Z.ones 8).
  destruct (Z.ltb_spec i 8);
    [| destruct (Z.ltb_spec i 16);
       [| destruct (Z.ltb_spec i 24); [| destruct (Z.ltb_spec i 32)]]];
    Z.bitblast_core.
  all: try (rewrite ?(Z.testbit_neg_r x) by lia; Z.bitblast_core).
Qed.

Lemma htons_testbit x i : 0 <= i -> Z.testbit (htons x) i = swap16_bit x i.
Proof.
  intros Hi. unfold htons, wrap16, swap16_bit.
  rewrite <- Z.land_ones by lia.
  change 65280 with (Z.shiftl (Z.ones 8) 8).
  change 255 with (Z.ones 8).
  destruct (Z.ltb_spec i 8); [| destruct (Z.ltb_spec i 16)];
    Z.bitblast_core.
  all: try (rewrite ?(Z.testbit_neg_r x) by lia; Z.bitblast_core).
Qed.

Ltac split_bit_ranges :=
  repeat match goal with
         | |- context [?a <? ?b] => destruct (Z.ltb_spec a b); try lia
         end;
  rewrite ?andb_true_r, ?andb_false_r; try reflexivity; f_equal; lia.

(** X7.  The byte swaps are involutions that stay in range: for every
    argument [htonl] returns a 32-bit value and [htons] a 16-bit value, and
    swapping twice gives back the argument (reduced to 32 resp. 16 bits),
    so the same functions serve to read a header field back. *)
Theorem X7_byte_swaps_are_involutions (x : Z) :
  0 <= htonl x < 2 ^ 32 /\
  htonl (htonl x) = x mod 2 ^ 32 /\
  0 <= htons x < 2 ^ 16 /\
  htons (htons x) = x mod 2 ^ 16.
Proof.
  assert (htonl x = htonl x mod 2 ^ 32) as Hl.
  { rewrite <- Z.land_ones by lia. apply Z.bits_inj'; intros i Hi.
    rewrite Z.land_spec, Z.testbit_ones_nonneg, htonl_testbit by lia.
    unfold swap_bit. split_bit_ranges. }
  split; [rewrite Hl; apply Z.mod_pos_bound; lia |].
  split.
  { rewrite <- Z.land_ones by lia. apply Z.bits_inj'; intros i Hi.
    rewrite htonl_testbit by lia. unfold swap_bit.
    rewrite Z.land_spec, Z.testbit_ones_nonneg by lia.
    destruct (Z.ltb_spec i 8);
      [| destruct (Z.ltb_spec i 16);
         [| destruct (Z.ltb_spec i 24); [| destruct (Z.ltb_spec i 32)]]];
      rewrite ?htonl_testbit by lia; unfold swap_bit; split_bit_ranges. }
  split; [unfold htons, wrap16; apply Z.mod_pos_bound; lia |].
  rewrite <- Z.land_ones by lia. apply Z.bits_inj'; intros i Hi.
  rewrite htons_testbit by lia. unfold swap16_bit.
  rewrite Z.land_spec, Z.testbit_ones_nonneg by lia.
  destruct (Z.ltb_spec i 8); [| destruct (Z.ltb_spec i 16)];
    rewrite ?htons_testbit by lia; unfold swap16_bit; split_bit_ranges.
Qed.

Lemma be_value_be32 x : 0 <= x < 2 ^ 32 -> be_value (be32 x) = x.
Proof.
  intros Hx. unfold be_value, be32. cbn [foldl].
  change (2 ^ 24) with (2 ^ 8 * (2 ^ 8 * 2 ^ 8)).
  change (2 ^ 16) with (2 ^ 8 * 2 ^ 8).
  rewrite <- !Z.div_div by lia. change (2 ^ 8) with 256.
  pose proof (Z.div_mod x 256 ltac:(lia)).
  pose proof (Z.div_mod (x / 256) 256 ltac:(lia)).
  pose proof (Z.div_mod (x / 256 / 256) 256 ltac:(lia)).
  assert (x / 256 / 256 / 256 < 256).
  { repeat (apply Z.div_lt_upper_bound; [lia |]). lia. }
  assert (0 <= x / 256 / 256 / 256) by (repeat apply Z.div_pos; lia).
  rewrite (Z.mod_small (x / 256 / 256 / 256)) by lia. lia.
Qed.

Lemma be_value_be16 x : 0 <= x < 2 ^ 16 -> be_value (be16 x) = x.
Proof.
  intros Hx. unfold be_value, be16. cbn [foldl].
  change (2 ^ 8) with 256.
  pose proof (Z.div_mod x 256 ltac:(lia)).
  assert (x / 256 < 256) by (apply Z.div_lt_upper_bound; lia).
  assert (0 <= x / 256) by (apply Z.div_pos; lia).
  rewrite (Z.mod_small (x / 256)) by lia. lia.
Qed.

(** X8.  The header can be read back.  In every datagram the loop body
    builds, reading bytes 0-3, 4-5, 6-7 and 8-11 in network byte order
    gives the frame id, the fragment index, the fragment count and the
    frame size, and what follows byte 12 is the payload slice. *)
Theorem X8_header_decodes (frameId fragmentIndex totalFragments : Z)
    (data : list Z) (offset payloadSize : Z) :
  0 <= frameId < 2 ^ 32 ->
  0 <= fragmentIndex < 2 ^ 16 ->
  0 <= totalFragments < 2 ^ 16 ->
  Z.of_nat (length data) < 2 ^ 32 ->
  let p := packet frameId fragmentIndex totalFragments data offset
             payloadSize in
  be_value (take 4 p) = frameId /\
  be_value (take 2 (drop 4 p)) = fragmentIndex /\
  be_value (take 2 (drop 6 p)) = totalFragments /\
  be_value (take 4 (drop 8 p)) = Z.of_nat (length data) /\
  drop 12 p = take (Z.to_nat payloadSize) (drop (Z.to_nat offset) data).
Proof.
  intros Hid Hidx Htf Hlen. cbv zeta. unfold packet.
  rewrite !htonl_be, !htons_be. unfold wrap32.
  rewrite (Z.mod_small (Z.of_nat (length data))) by lia.
  repeat split.
  - apply (be_value_be32 frameId Hid).
  - apply (be_value_be16 fragmentIndex Hidx).
  - apply (be_value_be16 totalFragments Htf).
  - apply (be_value_be32 (Z.of_nat (length data))). lia.
Qed.

Lemma X8_header_decodes_witness :
  be_value (take 4 (packet 16909060 2 3 sample_frame 2800 700)) = 16909060
  /\ be_value (take 2 (drop 6 (packet 16909060 2 3 sample_frame 2800 700)))
     = 3.
Proof.
  pose proof (X8_header_decodes 16909060 2 3 sample_frame 2800 700
                ltac:(lia) ltac:(lia) ltac:(lia)
                ltac:(vm_compute; reflexivity)) as H.
  cbv zeta in H. destruct H as (H1 & _ & H3 & _). split; assumption.
Defined.

Lemma packet_payload fid idx tf data off psz :
  drop 12 (packet fid idx tf data off psz)
  = take (Z.to_nat psz) (drop (Z.to_nat off) data).
Proof. reflexivity. Qed.

Lemma packet_length fid idx tf data off :
  0 <= off < Z.of_nat (length data) ->
  Z.of_nat (length (packet fid idx tf data off
                      (Z.min 1400 (Z.of_nat (length data) - off))))
  = 12 + Z.min 1400 (Z.of_nat (length data) - off).
Proof.
  intros Hoff. unfold packet, bytes_of_u32, bytes_of_u16.
  rewrite !length_app, length_take, length_drop. cbn [length]. lia.
Qed.

(** The payloads of the datagrams of a completed loop are the rest of the
    frame from [off] on, and every datagram has the header and 1 to 1400
    payload bytes. *)
Lemma send_loop_payloads ep fid tf data off idx k :
  0 <= off ->
  let r := send_loop ep fid tf data off idx k in
  (r.1 = true ->
   concat (map (drop 12) r.2) = drop (Z.to_nat off) data) /\
  Forall (fun p => 13 <= Z.of_nat (length p) <= 1412) r.2.
Proof.
  funelim (send_loop ep fid tf data off idx k); intros Hoff; cbv zeta.
  - unfold MAX_PAYLOAD_SIZE in *.
    destruct (endPacket k); cbn [fst snd];
      [| split; [discriminate | constructor]].
    destruct (H ltac:(lia)) as (Hcat & Hall). split.
    + intros Hok. cbn [map concat]. rewrite (Hcat Hok), packet_payload.
      replace (Z.to_nat
                 (offset + Z.min 1400 (Z.of_nat (length data) - offset)))
        with (Z.to_nat offset
              + Z.to_nat (Z.min 1400 (Z.of_nat (length data) - offset)))%nat
        by lia.
      rewrite <- drop_drop. apply take_drop.
    + constructor; [| exact Hall].
      rewrite packet_length by lia. lia.
  - cbn [fst snd map concat]. split; [| constructor].
    intros _. rewrite drop_ge by lia. reflexivity.
Qed.

(** X9.  Reassembly.  When [send] returns the full length, the payloads of
    the datagrams it transmitted (each datagram without its 12-byte
    header), concatenated in order, are exactly the frame. *)
Theorem X9_fragments_reassemble (s : t) (ep : nat -> bool) (data : list Z) :
  _connected s = true ->
  (forall j, (j < fragments (Z.of_nat (length data)))%nat -> ep j = true) ->
  concat (map (drop 12) (send s ep data).2) = data.
Proof.
  intros Hc Hall. unfold send. rewrite Hc. cbn [negb]. cbv zeta.
  match goal with |- context [send_loop ep ?f ?tf data 0 0 0] =>
    pose proof (send_loop_payloads ep f tf data 0 0 0 ltac:(lia)) as Hp;
    destruct (send_loop_all_ok ep f tf data Hall) as (pkts & Hloop & _) end.
  cbv zeta in Hp. rewrite Hloop in Hp |- *. cbn [fst snd] in Hp |- *.
  destruct Hp as (Hcat & _). rewrite (Hcat eq_refl). apply drop_0.
Qed.

Lemma X9_fragments_reassemble_witness :
  concat (map (drop 12)
            (send (connect new (Some 3232235826) 4444).1.2
                  (fun _ => true) sample_frame).2)
  = sample_frame.
Proof.
  exact (X9_fragments_reassemble (connect new (Some 3232235826) 4444).1.2
           (fun _ => true) sample_frame eq_refl (fun _ _ => eq_refl)).
Defined.

(** X10.  Datagram sizes.  Whatever the state, the payload and the
    behaviour of the socket, every datagram [send] transmits is between 13
    and 1412 bytes long: the 12-byte header and 1 to 1400 payload bytes.
    No datagram exceeds header plus fragment cap, and none is empty. *)
Theorem X10_datagram_sizes (s : t) (ep : nat -> bool) (data : list Z) :
  Forall (fun p => HEADER_SIZE + 1 <= Z.of_nat (length p)
                   <= HEADER_SIZE + MAX_PAYLOAD_SIZE)
         (send s ep data).2.
Proof.
  unfold send, HEADER_SIZE, MAX_PAYLOAD_SIZE.
  destruct (_connected s); cbn [negb]; [| constructor].
  cbv zeta.
  match goal with |- context [send_loop ep ?f ?tf data 0 0 0] =>
    pose proof (send_loop_payloads ep f tf data 0 0 0 ltac:(lia)) as Hp;
    destruct (send_loop ep f tf data 0 0 0) as [ok pkts] end.
  cbv zeta in Hp. destruct Hp as (_ & Hall). cbn [snd] in Hall.
  destruct ok; exact Hall.
Qed.




Lemma send_all_state frames : forall s,
  _connected s = true ->
  0 <= _frameId s < 2 ^ 32 ->
  _connected (send_all s frames) = true /\
  _frameId (send_all s frames)
  = (_frameId s + Z.of_nat (length frames)) mod 2 ^ 32.
Proof.
  induction frames as [| data frames IH]; intros s Hc Hid.
  - split; [exact Hc |]. cbn [send_all foldl length Z.of_nat].
    rewrite Z.add_0_r, Z.mod_small by lia. reflexivity.
  - unfold send_all. cbn [foldl]. fold (send_all
      (send s (fun _ => true) data).1.2 frames).
    destruct (send_connected_ok s (fun _ => true) data Hc
                (fun _ _ => eq_refl)) as (pkts & -> & _).
    cbn [fst snd].
    destruct (IH (set_frameId (wrap32 (_frameId s + 1)) s)) as (Hc' & Hid').
    + exact Hc.
    + cbn [set_frameId _frameId]. apply Z.mod_pos_bound. lia.
    + split; [exact Hc' |]. rewrite Hid'.
      cbn [set_frameId _frameId length]. unfold wrap32.
      rewrite Zplus_mod_idemp_l. f_equal. lia.
Qed.

(** X12.  Consecutive frames carry consecutive ids.  On a connected
    client, after any number of frames sent over a link that transmits
    every datagram, the frame id has advanced by that number (modulo 2^32),
    the client is still connected, and the datagrams of the next frame are
    the wire fragments for that id; right after a [connect] the frames are
    numbered 0, 1, 2, ... *)
Theorem X12_consecutive_frame_ids (s : t) (frames : list (list Z))
    (data : list Z) :
  _connected s = true ->
  0 <= _frameId s < 2 ^ 32 ->
  Z.of_nat (length data) <= 65535 * 1400 ->
  let id := (_frameId s + Z.of_nat (length frames)) mod 2 ^ 32 in
  _frameId (send_all s frames) = id /\
  (send (send_all s frames) (fun _ => true) data).2
  = wire_fragments id data /\
  (forall ip port,
     (send (send_all (connect s (Some ip) port).1.2 frames)
           (fun _ => true) data).2
     = wire_fragments (Z.of_nat (length frames) mod 2 ^ 32) data).
Proof.
  intros Hc Hid Hlen. cbv zeta.
  destruct (send_all_state frames s Hc Hid) as (Hc' & Hid').
  split; [exact Hid' |]. split.
  - rewrite send_wire; [rewrite Hid'; reflexivity | exact Hc'
                       | intros; reflexivity | exact Hlen].
  - intros ip port.
    destruct (send_all_state frames (connect s (Some ip) port).1.2
                eq_refl ltac:(cbn; lia)) as (Hc2 & Hid2).
    rewrite send_wire; [rewrite Hid2; reflexivity | exact Hc2
                       | intros; reflexivity | exact Hlen].
Qed.

Lemma X12_consecutive_frame_ids_witness :
  map (take 4)
    (send (send_all (connect new (Some 3232235826) 4444).1.2
             [[1; 2; 3]; []; sample_frame])
          (fun _ => true) [7; 7]).2
  = [[0; 0; 0; 3]].
Proof.
  pose proof (X12_consecutive_frame_ids
                (connect new (Some 3232235826) 4444).1.2
                [[1; 2; 3]; []; sample_frame] [7; 7]
                eq_refl ltac:(cbn; lia) ltac:(cbn; lia)) as H.
  cbv zeta in H. destruct H as (_ & -> & _). reflexivity.
Defined.

(** X13.  The handshake packet.  Whatever password was set, the datagram
    [connect] sends is the two bytes 'H', 'S' followed by exactly 8
    password bytes, 10 bytes in all: a password of 8 or more characters
    contributes its first 8, a shorter one is padded with NUL bytes; and a
    new client that never called [setPassword] sends "HSESP32CAM". *)
Theorem X13_handshake_packet (s : t) (password : list Z) (ip port : Z) :
  let pw := c_str password in
  (connect (setPassword s password) (Some ip) port).2
  = [[72; 83] ++ resize 8 0 pw] /\
  Forall (fun p => Z.of_nat (length p) = HANDSHAKE_SIZE)
         (connect (setPassword s password) (Some ip) port).2 /\
  ((8 <= length pw)%nat -> resize 8 0 pw = take 8 pw) /\
  ((length pw <= 8)%nat ->
   resize 8 0 pw = pw ++ replicate (8 - length pw) 0) /\
  (connect new (Some ip) port).2
  = [[72; 83; 69; 83; 80; 51; 50; 67; 65; 77]].
Proof.
  cbv zeta. unfold connect, sendHandshake, setPassword.
  cbn [_connected _password negb snd].
  rewrite take_ge by (rewrite length_resize; lia).
  split; [reflexivity |]. split.
  - constructor; [| constructor].
    rewrite length_app, length_resize. reflexivity.
  - split; [intros; apply resize_le; lia |].
    split; [intros; apply resize_ge; lia | reflexivity].
Qed.

End Datagrams.

(** ** The sessions *)

(** X14.  What [RelayClient::run] does to the session.  While the socket
    reports connected, [run] makes no call on it and the session is
    connected.  Otherwise the session is connected after [run] exactly when
    a reconnection was due and succeeded; the socket is stopped exactly
    when the session still believed it was connected, and [connect] is
    called exactly when a reconnection is due.  In no case does [run] touch
    the statistics, the last-send timestamp or the configured delays. *)
Theorem X14_relay_run_session (s : RelayClient.t) (e : RelayClient.run_io) :
  let r := RelayClient.run s e in
  (RelayClient.connected e = true ->
   r.2 = [] /\ RelayClient.isConnected r.1 = true) /\
  (RelayClient.connected e = false ->
   RelayClient.isConnected r.1 = retry_due s e && RelayClient.connect e /\
   r.2 = (if RelayClient._isConnected s then [Stop] else [])
         ++ (if retry_due s e then [Connect] else []) /\
   RelayClient._lastConnectionAttempt r.1
   = if retry_due s e then RelayClient.millis_attempt e
     else RelayClient._lastConnectionAttempt s) /\
  relay_stats r.1 = relay_stats s /\
  RelayClient._retryDelay r.1 = RelayClient._retryDelay s /\
  RelayClient._minSendInterval r.1 = RelayClient._minSendInterval s.
Proof.
  cbv zeta. unfold RelayClient.run, retry_due.
  destruct (RelayClient.connected e).
  - destruct (RelayClient._isConnected s) eqn:Hc; cbn;
      repeat first [split | intro];
      solve [discriminate | reflexivity | exact Hc].
  - destruct (RelayClient._isConnected s) eqn:Hc;
      cbn [RelayClient.set_isConnected RelayClient._retryDelay
           RelayClient._lastConnectionAttempt];
      destruct (RelayClient._retryDelay s <=? _);
      destruct (RelayClient.connect e); cbn;
      repeat first [split | intro];
      solve [discriminate | reflexivity | exact Hc].
Qed.

(** X15.  [CameraRelayClient::run] and its status.  The call returns
    [CAMERA_INIT_FAILED] exactly when the camera is not initialised, and
    then does nothing.  Unless it returns [OK] the frame counter, the byte
    counter, the last-send timestamp and the ring are unchanged; on [OK]
    the frame counter advances by 1 and the byte counter by the frame
    length (both modulo 2^32) and the timestamp is the reading taken after
    the write.  After [SEND_FAILED] the socket has been stopped and the
    session is disconnected; after [NOT_CONNECTED] the session is
    disconnected too, but the socket has not been stopped. *)
Theorem X15_camera_relay_run_status (s : CameraRelayClient.t)
    (e : CameraRelayClient.io) :
  let r := CameraRelayClient.run s e in
  (r.1.1 = CameraRelayClient.CAMERA_INIT_FAILED <->
   CameraRelayClient._cameraInitialized s = false) /\
  (r.1.1 = CameraRelayClient.CAMERA_INIT_FAILED -> r.1.2 = s /\ r.2 = []) /\
  (r.1.1 <> CameraRelayClient.OK ->
   camera_relay_stats r.1.2 = camera_relay_stats s) /\
  (r.1.1 = CameraRelayClient.OK ->
   CameraRelayClient._frameCount r.1.2
   = (CameraRelayClient._frameCount s + 1) mod 2 ^ 32 /\
   CameraRelayClient._bytesSent r.1.2
   = (CameraRelayClient._bytesSent s + CameraRelayClient.write e)
     mod 2 ^ 32 /\
   (exists buf, CameraRelayClient.fb e = Some buf /\
                CameraRelayClient.write e = Z.of_nat (length buf)) /\
   CameraRelayClient._lastFrameTime r.1.2
   = CameraRelayClient.millis_sent e) /\
  (r.1.1 = CameraRelayClient.SEND_FAILED ->
   CameraRelayClient.isConnected r.1.2 = false /\ last r.2 = Some Stop) /\
  (r.1.1 = CameraRelayClient.NOT_CONNECTED ->
   CameraRelayClient.isConnected r.1.2 = false /\ Stop ∉ r.2).
Proof.
  cbv zeta. unfold CameraRelayClient.run.
  destruct (CameraRelayClient._cameraInitialized s) eqn:Hcam; cbn [negb].
  2: { cbn [fst snd]. repeat first [split | intro];
         solve [congruence | reflexivity]. }
  assert (forall s1 log,
            camera_relay_stats s1 = camera_relay_stats s ->
            Stop ∉ log ->
            let r := CameraRelayClient.check_and_send s1 e log in
            r.1.1 <> CameraRelayClient.CAMERA_INIT_FAILED /\
            (r.1.1 <> CameraRelayClient.OK ->
             camera_relay_stats r.1.2 = camera_relay_stats s) /\
            (r.1.1 = CameraRelayClient.OK ->
             CameraRelayClient._frameCount r.1.2
             = (CameraRelayClient._frameCount s + 1) mod 2 ^ 32 /\
             CameraRelayClient._bytesSent r.1.2
             = (CameraRelayClient._bytesSent s + CameraRelayClient.write e)
               mod 2 ^ 32 /\
             (exists buf, CameraRelayClient.fb e = Some buf /\
                          CameraRelayClient.write e
                          = Z.of_nat (length buf)) /\
             CameraRelayClient._lastFrameTime r.1.2
             = CameraRelayClient.millis_sent e) /\
            (r.1.1 = CameraRelayClient.SEND_FAILED ->
             CameraRelayClient.isConnected r.1.2 = false /\
             last r.2 = Some Stop) /\
            (r.1.1 = CameraRelayClient.NOT_CONNECTED ->
             CameraRelayClient.isConnected r.1.2 = false /\ Stop ∉ r.2))
    as Hcs.
  { intros s1 log Hst Hlog. cbv zeta.
    pose proof Hst as Hst'. injection Hst as Hfc Hbs Hlt Hts Hix.
    unfold CameraRelayClient.check_and_send.
    destruct (CameraRelayClient._isConnected s1
              && negb (CameraRelayClient.connected e)).
    { cbn [fst snd]. repeat first [split | intro];
        solve [congruence | reflexivity | exact Hst' | contradiction]. }
    destruct (CameraRelayClient.canSend s1 _); cbn [negb].
    2: { cbn [fst snd]. repeat first [split | intro];
           solve [congruence | reflexivity | exact Hst' | contradiction]. }
    destruct (CameraRelayClient.fb e) as [buf |].
    2: { cbn [fst snd]. repeat first [split | intro];
           solve [congruence | reflexivity | exact Hst' | contradiction]. }
    destruct (Z.eqb_spec (CameraRelayClient.write e) (Z.of_nat (length buf)))
      as [Hw | Hw]; cbn [negb fst snd].
    - split; [discriminate |]. split; [congruence |].
      split; [| split; discriminate].
      intros _. rewrite Hfc, Hbs. split; [reflexivity |].
      split; [reflexivity |]. split; [| reflexivity].
      exists buf. split; [reflexivity | exact Hw].
    - split; [discriminate |]. split; [intros _; exact Hst' |].
      split; [congruence |]. split; [| discriminate].
      intros _. split; [reflexivity |].
      change [Write (Z.of_nat (length buf)) (CameraRelayClient.write e);
              Stop]
        with ([Write (Z.of_nat (length buf)) (CameraRelayClient.write e)]
              ++ [Stop]).
      rewrite app_assoc. apply last_snoc. }
  assert (forall x : CameraRelayClient.Status * CameraRelayClient.t
                     * list sock_call,
            x.1.1 <> CameraRelayClient.CAMERA_INIT_FAILED ->
            (x.1.1 = CameraRelayClient.CAMERA_INIT_FAILED <-> true = false)
            /\ (x.1.1 = CameraRelayClient.CAMERA_INIT_FAILED ->
                x.1.2 = s /\ x.2 = [])) as Hno.
  { intros x Hx. split; [split; [contradiction | discriminate] |].
    contradiction. }
  destruct (CameraRelayClient._isConnected s) eqn:Hconn; cbn [negb].
  - destruct (Hcs s [] eq_refl (not_elem_of_nil _)) as (Hne & Hrest).
    destruct (Hno _ Hne) as (H1 & H2).
    split; [exact H1 |]. split; [exact H2 | exact Hrest].
  - unfold CameraRelayClient.attemptConnection.
    destruct (_ <? _).
    + rewrite Hconn. cbn [negb fst snd].
      repeat first [split | intro]; solve [congruence | reflexivity].
    + cbn [CameraRelayClient.set_connection
           CameraRelayClient._isConnected].
      destruct (CameraRelayClient.connect e); cbn [negb].
      * match goal with |- context [CameraRelayClient.check_and_send ?s1 e
                                      ?log] =>
          destruct (Hcs s1 log eq_refl
                      ltac:(rewrite list_elem_of_singleton; discriminate))
            as (Hne & Hrest);
          destruct (Hno _ Hne) as (H1 & H2) end.
        split; [exact H1 |]. split; [exact H2 | exact Hrest].
      * rewrite Hconn. cbn [negb fst snd].
        repeat first [split | intro]; solve [congruence | reflexivity].
Qed.

Lemma capture_and_send_effect (s : CameraTcpServer.t)
    (e : CameraTcpServer.io) :
  let r := CameraTcpServer.capture_and_send s e in
  r.1 <> CameraTcpServer.NO_CLIENT /\
  r.1 <> CameraTcpServer.CAMERA_INIT_FAILED /\
  CameraTcpServer._clientCount r.2 = CameraTcpServer._clientCount s /\
  CameraTcpServer._cameraInitialized r.2
  = CameraTcpServer._cameraInitialized s /\
  CameraTcpServer._hasClient r.2
  = match r.1 with
    | CameraTcpServer.SEND_FAILED => false
    | _ => CameraTcpServer._hasClient s
    end.
Proof.
  cbv zeta. unfold CameraTcpServer.capture_and_send.
  destruct (CameraTcpServer.canSend s _); cbn [negb];
    [| repeat split; discriminate].
  destruct (CameraTcpServer.fb e); [| repeat split; discriminate].
  destruct (CameraTcpServer.write e =? _); cbn [negb];
    [repeat split; discriminate |].
  unfold CameraTcpServer.disconnectClient.
  destruct (CameraTcpServer._hasClient s) eqn:Hh; cbn;
    repeat split; solve [discriminate | exact Hh].
Qed.

(** X16.  The single client slot of the server sessions.  A live client is
    never replaced: while the server holds a client whose socket reports
    connected, [run] ignores a pending connection and counts no client.
    When the slot is empty or its client dead, [run] takes the pending
    client, if any, and counts it; [CameraTcpServer::run] does so in every
    call made with the camera initialised, whatever the status of the call
    before, and keeps the new client unless the send of that same call
    fails, while without a pending client it reports [NO_CLIENT] and counts
    nothing; with the camera not initialised it returns
    [CAMERA_INIT_FAILED] and touches nothing.  For [CameraTcpServer] the
    status tells the slot: it holds a client after [OK], [IDLE] and
    [CAMERA_CAPTURE_FAILED] and is empty after [NO_CLIENT] and
    [SEND_FAILED]; and the [run] that follows a [SEND_FAILED] accepts and
    counts a pending client, or reports [NO_CLIENT] if there is none. *)
Theorem X16_server_client_slot :
  (forall s conn available,
     let s' := TcpServer.run s conn available in
     (TcpServer._client s = true -> conn = true -> s' = s) /\
     (TcpServer._client s && conn = false ->
      TcpServer._client s' = available /\
      TcpServer._clientCount s'
      = if available then (TcpServer._clientCount s + 1) mod 2 ^ 32
        else TcpServer._clientCount s) /\
     tcp_stats s' = tcp_stats s /\
     TcpServer._frameInterval s' = TcpServer._frameInterval s) /\
  (forall s e,
     let r := CameraTcpServer.run s e in
     (r.1 = CameraTcpServer.NO_CLIENT \/ r.1 = CameraTcpServer.SEND_FAILED ->
      CameraTcpServer._hasClient r.2 = false) /\
     (r.1 = CameraTcpServer.OK \/ r.1 = CameraTcpServer.IDLE \/
      r.1 = CameraTcpServer.CAMERA_CAPTURE_FAILED ->
      CameraTcpServer._hasClient r.2 = true) /\
     (CameraTcpServer._hasClient s = true ->
      CameraTcpServer.connected e = true ->
      CameraTcpServer._clientCount r.2 = CameraTcpServer._clientCount s) /\
     (r.1 = CameraTcpServer.SEND_FAILED ->
      forall e',
        let r' := CameraTcpServer.run r.2 e' in
        if CameraTcpServer.available e'
        then r'.1 <> CameraTcpServer.NO_CLIENT /\
             CameraTcpServer._clientCount r'.2
             = (CameraTcpServer._clientCount r.2 + 1) mod 2 ^ 32
        else r'.1 = CameraTcpServer.NO_CLIENT /\
             CameraTcpServer._clientCount r'.2
             = CameraTcpServer._clientCount r.2) /\
     (CameraTcpServer._cameraInitialized s = true ->
      CameraTcpServer._hasClient s && CameraTcpServer.connected e = false ->
      if CameraTcpServer.available e
      then r.1 <> CameraTcpServer.NO_CLIENT /\
           CameraTcpServer._clientCount r.2
           = (CameraTcpServer._clientCount s + 1) mod 2 ^ 32 /\
           CameraTcpServer._hasClient r.2
           = match r.1 with
             | CameraTcpServer.SEND_FAILED => false
             | _ => true
             end
      else r.1 = CameraTcpServer.NO_CLIENT /\
           CameraTcpServer._clientCount r.2
           = CameraTcpServer._clientCount s /\
           CameraTcpServer._hasClient r.2 = false) /\
     (CameraTcpServer._cameraInitialized s = false ->
      r = (CameraTcpServer.CAMERA_INIT_FAILED, s))).
Proof.
  split.
  - intros s conn available. cbv zeta. unfold TcpServer.run.
    destruct (TcpServer._client s) eqn:Hc, conn, available; cbn;
      repeat first [split | intro];
      solve [discriminate | reflexivity | destruct s; cbn in *; congruence].
  - intros s e. cbv zeta.
    assert (CameraTcpServer._cameraInitialized (CameraTcpServer.run s e).2
            = CameraTcpServer._cameraInitialized s) as Hcam.
    { unfold CameraTcpServer.run.
      destruct (CameraTcpServer._cameraInitialized s) eqn:Hi; cbn [negb];
        [| exact Hi].
      destruct (negb (CameraTcpServer._hasClient s)
                || negb (CameraTcpServer.connected e)).
      - destruct (CameraTcpServer.available e).
        + match goal with |- context [CameraTcpServer.capture_and_send ?s1 e]
            => destruct (capture_and_send_effect s1 e) as (_ & _ & _ & -> & _)
          end.
          destruct (CameraTcpServer._hasClient s); exact Hi.
        + destruct (CameraTcpServer._hasClient s); exact Hi.
      - destruct (capture_and_send_effect s e) as (_ & _ & _ & -> & _).
        exact Hi. }
    assert ((CameraTcpServer.run s e).1 = CameraTcpServer.SEND_FAILED ->
            CameraTcpServer._cameraInitialized s = true) as Hinit.
    { unfold CameraTcpServer.run.
      destruct (CameraTcpServer._cameraInitialized s); cbn [negb];
        [reflexivity | discriminate]. }
    assert (((CameraTcpServer.run s e).1 = CameraTcpServer.NO_CLIENT \/
             (CameraTcpServer.run s e).1 = CameraTcpServer.SEND_FAILED ->
             CameraTcpServer._hasClient (CameraTcpServer.run s e).2 = false)
            /\ ((CameraTcpServer.run s e).1 = CameraTcpServer.OK \/
                (CameraTcpServer.run s e).1 = CameraTcpServer.IDLE \/
                (CameraTcpServer.run s e).1
                = CameraTcpServer.CAMERA_CAPTURE_FAILED ->
                CameraTcpServer._hasClient (CameraTcpServer.run s e).2
                = true)
            /\ (CameraTcpServer._hasClient s = true ->
                CameraTcpServer.connected e = true ->
                CameraTcpServer._clientCount (CameraTcpServer.run s e).2
                = CameraTcpServer._clientCount s)) as (Hempty & Hfull & Hlive).
    { unfold CameraTcpServer.run.
      destruct (CameraTcpServer._cameraInitialized s); cbn [negb].
      2: { repeat first [split | intro];
             solve [intuition discriminate | congruence]. }
      destruct (CameraTcpServer._hasClient s) eqn:Hh,
               (CameraTcpServer.connected e) eqn:Hconn; cbn [negb orb];
        try (destruct (CameraTcpServer.available e);
             [| cbn; repeat first [split | intro];
                solve [intuition discriminate | reflexivity | congruence]]);
        match goal with |- context [CameraTcpServer.capture_and_send ?s1 e]
          => destruct (capture_and_send_effect s1 e)
               as (Hn & Hi & Hcount & _ & Hhas);
             cbv zeta in Hn, Hi, Hcount, Hhas;
             destruct (CameraTcpServer.capture_and_send s1 e) as [st s2]
        end;
        cbn [fst snd] in *; rewrite Hhas;
        destruct st; cbn; rewrite ?Hh;
        repeat first [split | intro];
        solve [intuition discriminate | reflexivity | congruence
               | rewrite Hcount; reflexivity]. }
    split; [exact Hempty |]. split; [exact Hfull |].
    split; [exact Hlive |].
    split; [| split].
    + intros Hfailed e'. cbv zeta.
      pose proof (Hempty (or_intror Hfailed)) as Hnone.
      rewrite <- Hcam in Hinit. specialize (Hinit Hfailed).
      set (s1 := (CameraTcpServer.run s e).2) in *.
      unfold CameraTcpServer.run. rewrite Hinit, Hnone. cbn [negb orb].
      destruct (CameraTcpServer.available e').
      * match goal with |- context [CameraTcpServer.capture_and_send ?s2 e']
          => destruct (capture_and_send_effect s2 e') as (Hn & _ & -> & _)
        end.
        split; [exact Hn | reflexivity].
      * split; reflexivity.
    + intros Hi Hdead. unfold CameraTcpServer.run. rewrite Hi.
      cbn [negb].
      assert (negb (CameraTcpServer._hasClient s)
              || negb (CameraTcpServer.connected e) = true) as ->.
      { destruct (CameraTcpServer._hasClient s),
                 (CameraTcpServer.connected e);
          [discriminate | reflexivity..]. }
      destruct (CameraTcpServer.available e).
      * match goal with |- context [CameraTcpServer.capture_and_send ?s2 e]
          => destruct (capture_and_send_effect s2 e)
               as (Hn & _ & Hcount & _ & Hhas)
        end.
        cbv zeta in Hn, Hcount, Hhas.
        split; [exact Hn |]. split.
        -- rewrite Hcount.
           destruct (CameraTcpServer._hasClient s); reflexivity.
        -- rewrite Hhas.
           destruct ((CameraTcpServer.capture_and_send _ e).1);
             reflexivity.
      * destruct (CameraTcpServer._hasClient s) eqn:Hh;
          (split; [reflexivity |]; split; [reflexivity |]);
          [reflexivity | exact Hh].
    + intros Hi. unfold CameraTcpServer.run. rewrite Hi. reflexivity.
Qed.

Lemma X16_server_client_slot_witness :
  (CameraTcpServer.run camera_dead_client pending_tick).1
  = CameraTcpServer.IDLE /\
  CameraTcpServer._clientCount
    (CameraTcpServer.run camera_dead_client pending_tick).2 = 5 /\
  CameraTcpServer._hasClient
    (CameraTcpServer.run camera_dead_client pending_tick).2 = true.
Proof.
  pose proof (proj2 (proj2 (proj2 (proj2
                (proj2 X16_server_client_slot
                   camera_dead_client pending_tick))))) as [Hdead _].
  specialize (Hdead eq_refl eq_refl).
  cbn [CameraTcpServer.available pending_tick] in Hdead.
  destruct Hdead as (_ & Hcount & Hhas).
  split; [reflexivity |]. split; [exact Hcount | exact Hhas].
Defined.

Lemma write_loop_left obs : forall remaining totalSent t log,
  0 <= remaining < 2 ^ 32 ->
  RelayClient.write_loop obs remaining totalSent
  = (RelayClient.LoopLeft t, log) ->
  socket_contract log ->
  writes_made log = length log /\
  bytes_written log <= remaining /\
  (bytes_written log < remaining ->
   match obs !! length log with Some (true, _) => False | _ => True end).
Proof.
  induction obs as [| [conn sent] obs IH];
    intros remaining totalSent t log Hrem; cbn [RelayClient.write_loop].
  - destruct (remaining =? 0); intros [= <- <-] _; cbn; repeat split; lia.
  - destruct (Z.eqb_spec remaining 0);
      [intros [= <- <-] _; cbn; repeat split; lia |].
    destruct conn; [| intros [= <- <-] _; cbn; repeat split; lia].
    destruct (Z.eqb_spec sent 0); [discriminate |].
    destruct (RelayClient.write_loop obs _ _) as [r log'] eqn:E.
    intros [= -> <-] Hc. apply Forall_cons in Hc as [Hhead Htail].
    cbn beta iota in Hhead.
    unfold wrap32 in E. rewrite (Z.mod_small (remaining - sent)) in E by lia.
    destruct (IH (remaining - sent) _ _ _ ltac:(lia) E Htail)
      as (Hw & Hb & Hdown).
    cbn [writes_made bytes_written length lookup list_lookup].
    split; [lia |]. split; [lia |]. intros Hlt. apply Hdown. lia.
Qed.

(** X17.  What a true result of [RelayClient::sendData] guarantees.  With
    a socket that never reports more than it was asked to write, a call
    that returns true has written at most the payload, and has written
    less than the payload only if [connected()] answered false at the loop
    test that followed the last write: a true result alone does not tell
    that the whole frame was written. *)
Theorem X17_relay_send_true_means (s : RelayClient.t)
    (e : RelayClient.send_io) (data : list Z) :
  Z.of_nat (length data) < 2 ^ 32 ->
  (RelayClient.sendData s e data).1.1 = true ->
  socket_contract (RelayClient.sendData s e data).2 ->
  let log := (RelayClient.sendData s e data).2 in
  bytes_written log <= Z.of_nat (length data) /\
  (bytes_written log < Z.of_nat (length data) ->
   loop_test e (writes_made log) = false) /\
  (loop_test e (writes_made log) = true ->
   bytes_written log = Z.of_nat (length data)).
Proof.
  intros Hlen. unfold RelayClient.sendData.
  destruct (RelayClient._isConnected s); cbn [negb]; [| discriminate].
  destruct (RelayClient.canSend s _); cbn [negb]; [| discriminate].
  destruct (RelayClient.write_loop _ _ _) as [[| total] log] eqn:E;
    [discriminate |].
  intros _ Hc. cbv zeta. cbn [snd] in Hc |- *.
  apply Forall_app in Hc as [Hc _].
  destruct (write_loop_left _ (Z.of_nat (length data)) _ _ _ ltac:(lia) E Hc)
    as (Hw & Hb & Hdown).
  assert (bytes_written (log ++ [Flush; Stop]) = bytes_written log) as ->.
  { clear. induction log as [| [] log IH]; cbn; rewrite ?IH; reflexivity. }
  assert (writes_made (log ++ [Flush; Stop]) = writes_made log) as ->.
  { clear. induction log as [| [] log IH]; cbn; rewrite ?IH; reflexivity. }
  rewrite Hw. unfold loop_test.
  split; [exact Hb |]. split.
  - intros Hlt. specialize (Hdown Hlt).
    destruct (RelayClient.writes e !! length log) as [[[] ?] |];
      [contradiction | reflexivity | reflexivity].
  - intros Htest.
    destruct (Z_lt_le_dec (bytes_written log) (Z.of_nat (length data)))
      as [Hlt | Hge]; [| lia].
    specialize (Hdown Hlt).
    destruct (RelayClient.writes e !! length log) as [[[] ?] |];
      [contradiction | discriminate | discriminate].
Qed.

Lemma X17_relay_send_true_means_witness :
  let r := RelayClient.sendData relay_at_wrap
             {| RelayClient.millis_gate := 99;
                RelayClient.writes := [(true, 2); (false, 0)];
                RelayClient.millis_sent := 100 |} [1; 2; 3; 4; 5] in
  r.1.1 = true /\ bytes_written r.2 = 2 /\
  loop_test {| RelayClient.millis_gate := 99;
               RelayClient.writes := [(true, 2); (false, 0)];
               RelayClient.millis_sent := 100 |} (writes_made r.2) = false.
Proof.
  cbv zeta. split; [reflexivity |]. split; [reflexivity |].
  refine (proj1 (proj2
    (X17_relay_send_true_means relay_at_wrap
       {| RelayClient.millis_gate := 99;
          RelayClient.writes := [(true, 2); (false, 0)];
          RelayClient.millis_sent := 100 |} [1; 2; 3; 4; 5]
       ltac:(cbn; lia) eq_refl _)) _).
  - repeat constructor; cbn; lia.
  - vm_compute. reflexivity.
Defined.

(** X18.  A stopped datagram client.  After [stop()] every [send] returns
    0, transmits nothing and leaves the frame id alone, and a [connect]
    whose host lookup fails does not change that; a [connect] that resolves
    the host makes the client connected again and restarts the frame ids
    at 0. *)
Theorem X18_stopped_client (s : UDPNetworkClient.t) (ep : nat -> bool)
    (data : list Z) (ip port : Z) :
  let stopped := UDPNetworkClient.stop s in
  let failed := (UDPNetworkClient.connect stopped None port).1.2 in
  let again := (UDPNetworkClient.connect stopped (Some ip) port).1.2 in
  UDPNetworkClient.connected stopped = false /\
  UDPNetworkClient.send stopped ep data = (0, stopped, []) /\
  (UDPNetworkClient.connect stopped None port).1.1 = false /\
  (UDPNetworkClient.connect stopped None port).2 = [] /\
  (UDPNetworkClient.send failed ep data).1.1 = 0 /\
  (UDPNetworkClient.send failed ep data).2 = [] /\
  UDPNetworkClient._frameId failed = UDPNetworkClient._frameId s /\
  UDPNetworkClient.connected again = true /\
  UDPNetworkClient._frameId again = 0.
Proof.
  cbv zeta. repeat split.
Qed.

(** X19.  [TcpServer::sendData] drops the client on a short write.  When
    a client is held and live but the socket accepts a number of bytes
    other than the payload length, the call returns false and releases the
    client: [hasClient()] is false afterwards whatever the socket reports,
    a further [sendData] fails without touching anything, and the next
    [run()] takes a pending client and counts it. *)
Theorem X19_tcp_short_write_drops_client (s : TcpServer.t)
    (e : TcpServer.io) (data : list Z) :
  TcpServer.hasClient s (TcpServer.connected e) = true ->
  TcpServer.write e <> Z.of_nat (length data) ->
  let r := TcpServer.sendData s e data in
  r.1 = false /\
  (forall conn, TcpServer.hasClient r.2 conn = false) /\
  (forall e' data', TcpServer.sendData r.2 e' data' = (false, r.2)) /\
  (forall conn,
     TcpServer._client (TcpServer.run r.2 conn true) = true /\
     TcpServer._clientCount (TcpServer.run r.2 conn true)
     = (TcpServer._clientCount s + 1) mod 2 ^ 32 /\
     TcpServer._client (TcpServer.run r.2 conn false) = false).
Proof.
  intros Hhas Hw. cbv zeta. unfold TcpServer.sendData. rewrite Hhas.
  cbn [negb]. destruct (Z.eqb_spec (TcpServer.write e)
                          (Z.of_nat (length data))); [contradiction |].
  cbn [negb fst snd]. unfold TcpServer.hasClient in Hhas.
  apply andb_prop in Hhas as [Hc _].
  unfold TcpServer.disconnectClient. rewrite Hc.
  split; [reflexivity |]. split; [reflexivity |].
  split; [reflexivity |]. intros conn. repeat split.
Qed.

Lemma X19_tcp_short_write_drops_client_witness :
  (TcpServer.sendData server_near_4GiB
     {| TcpServer.connected := true; TcpServer.write := 2;
        TcpServer.millis_sent := 429496800;
        TcpServer.millis_fps := 429496800 |} [1; 2; 3]).1 = false /\
  TcpServer.hasClient
    (TcpServer.sendData server_near_4GiB
       {| TcpServer.connected := true; TcpServer.write := 2;
          TcpServer.millis_sent := 429496800;
          TcpServer.millis_fps := 429496800 |} [1; 2; 3]).2 true = false.
Proof.
  pose proof (X19_tcp_short_write_drops_client server_near_4GiB
                {| TcpServer.connected := true; TcpServer.write := 2;
                   TcpServer.millis_sent := 429496800;
                   TcpServer.millis_fps := 429496800 |} [1; 2; 3]
                eq_refl ltac:(cbn; lia)) as H.
  cbv zeta in H. destruct H as (H1 & H2 & _).
  split; [exact H1 | exact (H2 true)].
Defined.

Lemma camera_server_run_frame_count (s : CameraTcpServer.t)
    (e : CameraTcpServer.io) :
  CameraTcpServer._frameCount (CameraTcpServer.run s e).2
  = match (CameraTcpServer.run s e).1 with
    | CameraTcpServer.OK => (CameraTcpServer._frameCount s + 1) mod 2 ^ 32
    | _ => CameraTcpServer._frameCount s
    end.
Proof.
  assert (forall s1,
            CameraTcpServer._frameCount s1 = CameraTcpServer._frameCount s ->
            CameraTcpServer._frameCount
              (CameraTcpServer.capture_and_send s1 e).2
            = match (CameraTcpServer.capture_and_send s1 e).1 with
              | CameraTcpServer.OK =>
                  (CameraTcpServer._frameCount s + 1) mod 2 ^ 32
              | _ => CameraTcpServer._frameCount s
              end) as Hcs.
  { intros s1 Hfc. unfold CameraTcpServer.capture_and_send.
    destruct (CameraTcpServer.canSend s1 _); cbn [negb]; [| exact Hfc].
    destruct (CameraTcpServer.fb e); [| exact Hfc].
    destruct (CameraTcpServer.write e =? _); cbn [negb fst snd].
    - cbn. rewrite Hfc. reflexivity.
    - unfold CameraTcpServer.disconnectClient.
      destruct (CameraTcpServer._hasClient s1); exact Hfc. }
  unfold CameraTcpServer.run.
  destruct (CameraTcpServer._cameraInitialized s); cbn [negb];
    [| reflexivity].
  destruct (negb (CameraTcpServer._hasClient s)
            || negb (CameraTcpServer.connected e)).
  - destruct (CameraTcpServer.available e).
    + apply Hcs. destruct (CameraTcpServer._hasClient s); reflexivity.
    + destruct (CameraTcpServer._hasClient s); reflexivity.
  - apply Hcs. reflexivity.
Qed.

Lemma camera_server_runs_count_mod (es : list CameraTcpServer.io) :
  forall s : CameraTcpServer.t,
    CameraTcpServer._frameCount (camera_server_runs s es).2 mod 2 ^ 32
    = (CameraTcpServer._frameCount s
       + frames_ok (camera_server_runs s es).1) mod 2 ^ 32.
Proof.
  induction es as [| e es IH]; intros s; cbn [camera_server_runs fst snd].
  - cbn [frames_ok]. rewrite Z.add_0_r. reflexivity.
  - rewrite IH, camera_server_run_frame_count.
    destruct (CameraTcpServer.run s e).1; cbn [frames_ok];
      rewrite ?Zplus_mod_idemp_l; f_equal; lia.
Qed.

Lemma camera_server_runs_count_range (es : list CameraTcpServer.io) :
  forall s : CameraTcpServer.t,
    0 <= CameraTcpServer._frameCount s < 2 ^ 32 ->
    0 <= CameraTcpServer._frameCount (camera_server_runs s es).2 < 2 ^ 32.
Proof.
  induction es as [| e es IH]; intros s Hs; cbn [camera_server_runs snd];
    [exact Hs |].
  apply IH. rewrite camera_server_run_frame_count.
  destruct (CameraTcpServer.run s e).1;
    solve [exact Hs | apply Z.mod_pos_bound; lia].
Qed.

(** X20.  The frame counter counts the frames sent.  Over any sequence of
    [CameraTcpServer::run] calls, whatever each call observes, the frame
    counter advances by exactly the number of calls that returned [OK]
    (modulo 2^32). *)
Theorem X20_frame_counter_counts_ok (s : CameraTcpServer.t)
    (es : list CameraTcpServer.io) :
  0 <= CameraTcpServer._frameCount s < 2 ^ 32 ->
  CameraTcpServer._frameCount (camera_server_runs s es).2
  = (CameraTcpServer._frameCount s
     + frames_ok (camera_server_runs s es).1) mod 2 ^ 32.
Proof.
  intros Hs. rewrite <- camera_server_runs_count_mod.
  symmetry. apply Z.mod_small.
  apply camera_server_runs_count_range, Hs.
Qed.

Lemma X20_frame_counter_counts_ok_witness :
  exists c0, CameraTcpServer.new 1234 10 = Some c0 /\
    let es := map (fun now => CameraTcpServer.good_tick now [1; 2; 3])
                [50; 100; 150; 200; 250; 300] in
    let r := camera_server_runs (CameraTcpServer.begin c0 true).2 es in
    r.1 = [CameraTcpServer.IDLE; CameraTcpServer.OK; CameraTcpServer.IDLE;
           CameraTcpServer.OK; CameraTcpServer.IDLE; CameraTcpServer.OK] /\
    CameraTcpServer._frameCount r.2 = 3.
Proof.
  eexists. split; [reflexivity |]. cbv zeta. split; [reflexivity |].
  match goal with |- context [camera_server_runs ?s ?es] =>
    rewrite (X20_frame_counter_counts_ok s es ltac:(cbn; lia)) end.
  reflexivity.
Defined.
